(** * tracelog: a shallow embedding of the leveled logger

    The Go package [tracelog] (files [tracelog.go], [logcalls.go] and the
    call-depth variants) is embedded here as Rocq functions:

    - writers ([io.Writer] values) are an inductive type; pointer
      comparison with [os.Stdout] / [os.Stderr] is structural equality;
    - the package-level singleton [logger] is a record threaded through a
      small state-and-outcome monad; every observable action (taking the
      lock, handing a line to a [log.Logger], removing a directory, sending
      mail, closing a file) is appended to an event trace;
    - a Go panic is an outcome of the monad, and [defer CatchPanic] is the
      handler that the monad runs on that outcome;
    - the operating system, the clock, [fmt.Sprintf] on caller-supplied
      formats, the template engine and the SMTP client are fields of an
      environment record. The template engine and the SMTP client may
      panic; [fmt.Sprintf] is taken to return a string for every format
      and operand list, and [time.Date] to be exact. *)

From Stdlib Require Import ZArith List String Ascii Bool Lia DecimalString.
Import ListNotations.

Local Set Warnings "-register-all".
Local Open Scope string_scope.
Local Open Scope Z_scope.

(** ** Level mask (tracelog.go, lines 82-87) *)

Definition LEVEL_TRACE : Z := 1.
Definition LEVEL_INFO  : Z := 2.
Definition LEVEL_WARN  : Z := 4.
Definition LEVEL_ERROR : Z := 8.

Definition systemAlertSubject : string := "TraceLog Exception".

(** [logLevel&LEVEL_X != 0] on an [int32]: [Z.land] on the two's-complement
    reading of the integer, which is what [Z.land] computes on negative
    numbers too. *)
Definition bit_set (logLevel mask : Z) : bool :=
  negb (Z.land logLevel mask =? 0).

(** ** Writers

    [Discard] is [ioutil.Discard]; [Stdout] and [Stderr] are the two
    package-level [*os.File] pointers of package [os]; [OsFile fd] is any
    other [*os.File] (the one [os.Create] returns); [MultiWriter ws] is the
    value built by [io.MultiWriter]. *)

Inductive Writer : Type :=
| Discard
| Stdout
| Stderr
| OsFile (fd : nat)
| MultiWriter (ws : list Writer).

(** Interface comparison [h == os.Stdout]. *)
Definition is_Stdout (w : Writer) : bool :=
  match w with Stdout => true | _ => false end.

Definition is_Stderr (w : Writer) : bool :=
  match w with Stderr => true | _ => false end.

(** [io.MultiWriter(writers...)]: the arguments are copied into one
    fan-out writer; an argument that is itself a fan-out writer
    contributes its members. *)
Definition io_MultiWriter (writers : list Writer) : Writer :=
  MultiWriter
    (flat_map (fun w => match w with MultiWriter l => l | _ => [w] end) writers).

(** Does a write to [w] reach the file with descriptor [fd]? *)
Fixpoint writes_to_file (fd : nat) (w : Writer) : bool :=
  match w with
  | OsFile fd' => Nat.eqb fd' fd
  | MultiWriter ws => existsb (writes_to_file fd) ws
  | _ => false
  end.

(** ** Loggers and the singleton state (tracelog.go, lines 89-114) *)

(** [log.Ldate | log.Ltime | log.Lshortfile] *)
Definition Ldate : Z := 1.
Definition Ltime : Z := 2.
Definition Lshortfile : Z := 16.
Definition stdFlags : Z := Z.lor (Z.lor Ldate Ltime) Lshortfile.

(** A [*log.Logger] as built by [log.New(out, prefix, flag)]. *)
Record Logger : Type := log_New {
  logger_out : Writer;
  logger_prefix : string;
  logger_flag : Z
}.

(** A Go [error]: [None] is [nil], [Some s] an error whose [Error()] is [s]. *)
Definition error : Type := option string.

Record emailConfiguration : Type := {
  Host : string;
  Port : Z;
  UserName : string;
  Password : string;
  To : list string;
  (** [smtp.PlainAuth("", userName, password, host)] *)
  Auth : string * string * string * string;
  (** the parsed template; its source text is kept *)
  Template : string
}.

(** The struct [traceLog]; its fields are [traceLog.Trace] and so on, the
    package's functions [Trace], [Info], ... keeping their own names.
    Pointer fields are options ([None] is [nil]); [Serialize] is [true]
    while the mutex is locked. *)
Module traceLog.
Record t : Type := {
  LogLevel : Z;
  Serialize : bool;
  EmailConfiguration : option emailConfiguration;
  Trace : option Logger;
  Info : option Logger;
  Warning : option Logger;
  Error : option Logger;
  File : option Logger;
  LogFile : option nat
}.
End traceLog.

(** The zero value of [traceLog]: the initial value of [var logger]. *)
Definition zero_traceLog : traceLog.t :=
  {| traceLog.LogLevel := 0; traceLog.Serialize := false;
     traceLog.EmailConfiguration := None;
     traceLog.Trace := None; traceLog.Info := None; traceLog.Warning := None;
     traceLog.Error := None; traceLog.File := None; traceLog.LogFile := None |}.

Inductive Severity : Type := SevTrace | SevInfo | SevWarning | SevError.

Definition logger_of (l : traceLog.t) (s : Severity) : option Logger :=
  match s with
  | SevTrace => traceLog.Trace l
  | SevInfo => traceLog.Info l
  | SevWarning => traceLog.Warning l
  | SevError => traceLog.Error l
  end.

(** The writer a severity's logger was built on. *)
Definition sink_of (l : traceLog.t) (s : Severity) : option Writer :=
  option_map logger_out (logger_of l s).

(** ** turnOnLogging (tracelog.go, lines 222-276)

    The function assigns a composite literal to [logger] and then stores
    the level; it reads nothing of the previous value, so it is embedded
    as the value [logger] holds when it returns. *)

Definition turnOnLogging (logLevel : Z) (fileHandle : option Writer) : traceLog.t :=
  let traceHandle := Discard in
  let infoHandle := Discard in
  let warnHandle := Discard in
  let errorHandle := Discard in
  let '(traceHandle, infoHandle, warnHandle, errorHandle) :=
    if bit_set logLevel LEVEL_TRACE
    then (Stdout, Stdout, Stdout, Stderr)
    else (traceHandle, infoHandle, warnHandle, errorHandle) in
  let '(infoHandle, warnHandle, errorHandle) :=
    if bit_set logLevel LEVEL_INFO
    then (Stdout, Stdout, Stderr)
    else (infoHandle, warnHandle, errorHandle) in
  let '(warnHandle, errorHandle) :=
    if bit_set logLevel LEVEL_WARN
    then (Stdout, Stderr)
    else (warnHandle, errorHandle) in
  let errorHandle :=
    if bit_set logLevel LEVEL_ERROR then Stderr else errorHandle in
  let '(traceHandle, infoHandle, warnHandle, errorHandle) :=
    match fileHandle with
    | Some fh =>
        ((if is_Stdout traceHandle then io_MultiWriter [fh; traceHandle] else traceHandle),
         (if is_Stdout infoHandle then io_MultiWriter [fh; infoHandle] else infoHandle),
         (if is_Stdout warnHandle then io_MultiWriter [fh; warnHandle] else warnHandle),
         (if is_Stderr errorHandle then io_MultiWriter [fh; errorHandle] else errorHandle))
    | None => (traceHandle, infoHandle, warnHandle, errorHandle)
    end in
  {| traceLog.LogLevel := logLevel;
     traceLog.Serialize := false;
     traceLog.EmailConfiguration := None;
     traceLog.Trace := Some (log_New traceHandle "TRACE: " stdFlags);
     traceLog.Info := Some (log_New infoHandle "INFO: " stdFlags);
     traceLog.Warning := Some (log_New warnHandle "WARNING: " stdFlags);
     traceLog.Error := Some (log_New errorHandle "ERROR: " stdFlags);
     traceLog.File := None;
     traceLog.LogFile := None |}.

(** The cascading rule as the specification words it (section 4.1):
    the first set bit, most verbose first, decides every sink. *)
Definition cascade (logLevel : Z) (s : Severity) : Writer :=
  if bit_set logLevel LEVEL_TRACE then
    match s with SevError => Stderr | _ => Stdout end
  else if bit_set logLevel LEVEL_INFO then
    match s with SevTrace => Discard | SevError => Stderr | _ => Stdout end
  else if bit_set logLevel LEVEL_WARN then
    match s with SevWarning => Stdout | SevError => Stderr | _ => Discard end
  else if bit_set logLevel LEVEL_ERROR then
    match s with SevError => Stderr | _ => Discard end
  else Discard.

(** A console sink is active when it is not the discard writer. *)
Definition active (w : Writer) : bool :=
  match w with Discard => false | _ => true end.

(** ** Go's [strings], [strconv] and [time], as far as the package uses them *)

Module GoStrings.

Definition LF : string := String (ascii_of_nat 10) EmptyString.
Definition DQ : string := String (ascii_of_nat 34) EmptyString.

(** [strings.Split(s, sep)] for a one-byte separator: the pieces of [s]
    between the occurrences of [sep]; never the empty list. *)
Fixpoint Split (s : string) (sep : ascii) : list string :=
  match s with
  | EmptyString => [EmptyString]
  | String c rest =>
      if Ascii.eqb c sep then EmptyString :: Split rest sep
      else match Split rest sep with
           | h :: t => String c h :: t
           | [] => [String c EmptyString]
           end
  end.

(** [strings.Join(a, sep)] *)
Definition Join (a : list string) (sep : string) : string := String.concat sep a.

(** [strings.TrimRight(s, cutset)] for a one-byte cutset. *)
Fixpoint TrimRight (s : string) (c : ascii) : string :=
  match s with
  | EmptyString => EmptyString
  | String a rest =>
      match TrimRight rest c with
      | EmptyString => if Ascii.eqb a c then EmptyString else String a EmptyString
      | r => String a r
      end
  end.

(** [strings.Replace(s, old, new, -1)] for one-byte [old] and [new]. *)
Fixpoint ReplaceAll (s : string) (old new : ascii) : string :=
  match s with
  | EmptyString => EmptyString
  | String a rest =>
      String (if Ascii.eqb a old then new else a) (ReplaceAll rest old new)
  end.

(** Decimal rendering of an integer ([%d], [strconv.Itoa]). *)
Definition Itoa (z : Z) : string := NilZero.string_of_int (Z.to_int z).

(** Decimal rendering zero-padded on the left to [width] digits, for a
    non-negative number (the fields of [Time.Format]). *)
Fixpoint zeros (n : nat) : string :=
  match n with O => EmptyString | S k => String "0" (zeros k) end.

Definition pad (width : nat) (z : Z) : string :=
  let d := Itoa z in zeros (width - String.length d) ++ d.

Definition maxInt64 : Z := 9223372036854775807.
Definition minInt64 : Z := -9223372036854775808.

Definition digit_of (c : ascii) : option Z :=
  let n := Z.of_nat (nat_of_ascii c) in
  if (48 <=? n) && (n <=? 57) then Some (n - 48) else None.

Fixpoint parse_digits (s : string) (acc : Z) : option Z :=
  match s with
  | EmptyString => Some acc
  | String c rest =>
      match digit_of c with
      | Some d => parse_digits rest (10 * acc + d)
      | None => None
      end
  end.

Definition NumError (num reason : string) : string :=
  "strconv.Atoi: parsing " ++ DQ ++ num ++ DQ ++ ": " ++ reason.

(** [strconv.Atoi(s)] on a 64-bit platform: an optional sign, then one or
    more decimal digits; the value and a [nil] error, or an
    [invalid syntax] / [value out of range] error. (The quoting of the
    offending text in the error message is plain double quotes.) *)
Definition Atoi (s : string) : Z * error :=
  let '(neg, body) :=
    match s with
    | String "-" rest => (true, rest)
    | String "+" rest => (false, rest)
    | _ => (false, s)
    end in
  match body with
  | EmptyString => (0, Some (NumError s "invalid syntax"))
  | _ =>
      match parse_digits body 0 with
      | None => (0, Some (NumError s "invalid syntax"))
      | Some n =>
          let v := if neg then - n else n in
          if v <? minInt64 then (minInt64, Some (NumError s "value out of range"))
          else if maxInt64 <? v then (maxInt64, Some (NumError s "value out of range"))
          else (v, None)
      end
  end.

End GoStrings.

Module GoTime.

(** What [time.Now().UTC()] shows of the clock. *)
Record Clock : Type := {
  Year : Z; Month : Z; Day : Z; Hour : Z; Minute : Z; Second : Z
}.

Definition isLeap (year : Z) : bool :=
  (year mod 4 =? 0) && (negb (year mod 100 =? 0) || (year mod 400 =? 0)).

(** Days of the proleptic Gregorian calendar before 1 January of [year],
    counted from 1 January of year 1. *)
Definition daysBeforeYear (year : Z) : Z :=
  let y := year - 1 in
  365 * y + y / 4 - y / 100 + y / 400.

(** [daysBefore[m]]: days of a non-leap year before month [m+1]. *)
Definition daysBefore (month0 : Z) : Z :=
  nth (Z.to_nat month0)
      [0; 31; 59; 90; 120; 151; 181; 212; 243; 273; 304; 334] 365.

(** [time.Date(year, month, day, 0, 0, 0, 0, time.UTC)] as the number of
    the day it denotes. The month is normalised into 1..12 by carrying
    into the year, and the day may be any integer: day 0 is the last day
    of the previous month, and so on. (The standard library computes
    this in 64-bit arithmetic, which is exact as long as the instant is
    within its representable range of about 292 billion years.) *)
Definition Date (year month day : Z) : Z :=
  let m := month - 1 in
  let year := year + m / 12 in
  let m := m mod 12 in
  daysBeforeYear year + daysBefore m
  + (if isLeap year && (2 <=? m) then 1 else 0)
  + (day - 1).

Definition Second_ns : Z := 1000000000.
Definition Hour_ns : Z := 3600 * Second_ns.
Definition nsPerDay : Z := 24 * Hour_ns.

Definition maxDuration : Z := GoStrings.maxInt64.
Definition minDuration : Z := GoStrings.minInt64.

(** [t.Sub(u)] for two midnights given by their day numbers: the
    duration in nanoseconds, saturated to the [int64] range. *)
Definition Sub (t u : Z) : Z :=
  let d := (t - u) * nsPerDay in
  if (minDuration <=? d) && (d <=? maxDuration) then d
  else if t <? u then minDuration else maxDuration.

(** [int(d.Hours() / 24)]. [Hours] is a [float64]; on the durations
    [Sub] returns for two midnights (a whole number of days, or one of
    the two saturation values) the floating-point quotient is exact up
    to the truncation, which rounds toward zero. *)
Definition wholeDays (d : Z) : Z := Z.quot d nsPerDay.

(** The calendar date (year, month, day) of a day number. *)
Definition civil (day : Z) : Z * Z * Z :=
  let z := day + 306 in
  let era := z / 146097 in
  let doe := z mod 146097 in
  let yoe := (doe - doe / 1460 + doe / 36524 - doe / 146096) / 365 in
  let doy := doe - (365 * yoe + yoe / 4 - yoe / 100) in
  let mp := (5 * doy + 2) / 153 in
  let d := doy - (153 * mp + 2) / 5 + 1 in
  let m := if mp <? 10 then mp + 3 else mp - 9 in
  (yoe + era * 400 + (if m <=? 2 then 1 else 0), m, d).

(** [t.String()] for the midnight (UTC) of a day. *)
Definition String_ (day : Z) : string :=
  let '(y, m, d) := civil day in
  GoStrings.pad 4 y ++ "-" ++ GoStrings.pad 2 m ++ "-" ++ GoStrings.pad 2 d
  ++ " 00:00:00 +0000 UTC".

(** [t.Format("2006-01-02")] and [t.Format("2006-01-02T15-04-05")]. *)
Definition FormatDate (c : Clock) : string :=
  GoStrings.pad 4 (Year c) ++ "-" ++ GoStrings.pad 2 (Month c) ++ "-"
  ++ GoStrings.pad 2 (Day c).

Definition FormatDateTime (c : Clock) : string :=
  FormatDate c ++ "T" ++ GoStrings.pad 2 (Hour c) ++ "-"
  ++ GoStrings.pad 2 (Minute c) ++ "-" ++ GoStrings.pad 2 (Second c).

End GoTime.

(** ** [fmt.Sprintf] on the package's own format strings *)

(** An operand of a formatting call. [VTime d] is the midnight (UTC) of
    day number [d]. *)
Inductive Value : Type :=
| VString (s : string)
| VInt (z : Z)
| VError (e : error)
| VTime (day : Z).

Module GoFmt.

(** How the verbs [%s], [%d] and [%v] print an operand of the kind the
    verb is for, as the package's fixed formats pair them: a string as
    itself, an integer in decimal, an error as its [Error()] text, a time
    by its [String] method; a [nil] error prints as [<nil>] under [%v] and
    as the bad-verb marker under the other verbs. *)
Definition show (verb : ascii) (v : Value) : string :=
  match v with
  | VString s => s
  | VInt z => GoStrings.Itoa z
  | VError (Some e) => e
  | VError None =>
      if Ascii.eqb verb "v" then "<nil>" else "%!" ++ String verb "(<nil>)"
  | VTime d => GoTime.String_ d
  end.

(** The fragment of [fmt.Sprintf] used by the package's fixed formats:
    plain text, [%%], and the verbs [%s], [%d], [%v] without flags, each
    taking the next operand. (Operands left over when the format ends are
    dropped here; none of the fixed formats has any.) *)
Fixpoint Sprintf (format : string) (a : list Value) : string :=
  match format with
  | EmptyString => EmptyString
  | String "%" EmptyString => "%!(NOVERB)"
  | String "%" (String "%" rest) => String "%" (Sprintf rest a)
  | String "%" (String verb rest) =>
      match a with
      | v :: a' => show verb v ++ Sprintf rest a'
      | [] => "%!" ++ String verb "(MISSING)" ++ Sprintf rest []
      end
  | String c rest => String c (Sprintf rest a)
  end.

End GoFmt.

(** ** The environment: everything outside the package *)

(** A directory entry as [ioutil.ReadDir] returns it. *)
Record FileInfo : Type := { Name : string; IsDir : bool }.

(** The anonymous struct handed to the template. *)
Record emailParameters : Type := {
  param_From : string;
  param_To : string;
  param_Subject : string;
  param_Message : string
}.

(** The result of a call into a library that may panic. *)
Inductive Ext (A : Type) : Type :=
| ExtReturn (a : A)
| ExtPanic (v : string).
Arguments ExtReturn {A} a.
Arguments ExtPanic {A} v.

(** Every field takes first the number of calls made to the environment
    so far, so that an answer may depend on the moment it is asked. *)
Record Env : Type := {
  (** [fmt.Sprintf(format, a...)] on a format chosen by the caller *)
  fmt_Sprintf : string -> list Value -> string;
  (** [time.Now().UTC()] *)
  time_Now : nat -> GoTime.Clock;
  os_MkdirAll : nat -> string -> error;
  (** [os.Create]: a file descriptor, or the text of the error *)
  os_Create : nat -> string -> nat + string;
  (** [ioutil.ReadDir]: the entries, or the text of the error *)
  ioutil_ReadDir : nat -> string -> list FileInfo + string;
  os_RemoveAll : nat -> string -> error;
  (** the [Close] method of an [os.File] *)
  File_Close : nat -> nat -> error;
  (** the text [runtime.Stack] leaves in the buffer *)
  runtime_Stack : nat -> string;
  (** [Template.Execute]: the bytes written to the buffer *)
  template_Execute : nat -> string -> emailParameters -> Ext string;
  smtp_SendMail :
    nat -> string -> string * string * string * string -> string ->
    list string -> string -> Ext error
}.

(** ** Events, worlds and the monad *)

Inductive Event : Type :=
| EvLock
| EvUnlock
(** a log line or alert message has been composed *)
| EvFormat (line : string)
(** [l.Output(calldepth, s)] *)
| EvOutput (l : Logger) (calldepth : Z) (s : string)
| EvMkdirAll (path : string)
| EvCreate (path : string)
| EvReadDir (path : string)
| EvRemoveAll (path : string)
| EvClose (fd : nat)
| EvExecute (p : emailParameters)
| EvSendMail (addr from : string) (to : list string) (msg : string)
(** [log.Fatalf]: the message printed before the process exits *)
| EvFatal (msg : string).

Record World : Type := {
  logger : traceLog.t;
  events : list Event;
  tick : nat
}.

(** How a call ends. [Exited] is the end of the process ([os.Exit], a
    fatal runtime error); [Stuck] is a goroutine blocked for ever on the
    mutex; [OutOfFuel] is the model's bound on nested alert attempts. *)
Inductive Outcome (A : Type) : Type :=
| Returned (a : A)
| Panicked (v : string)
| Exited (code : Z)
| Stuck
| OutOfFuel.
Arguments Returned {A} a.
Arguments Panicked {A} v.
Arguments Exited {A} code.
Arguments Stuck {A}.
Arguments OutOfFuel {A}.

Definition M (A : Type) : Type := World -> Outcome A * World.

Definition ret {A : Type} (a : A) : M A := fun w => (Returned a, w).

Definition bind {A B : Type} (m : M A) (f : A -> M B) : M B :=
  fun w =>
    match m w with
    | (Returned a, w') => f a w'
    | (Panicked v, w') => (Panicked v, w')
    | (Exited c, w') => (Exited c, w')
    | (Stuck, w') => (Stuck, w')
    | (OutOfFuel, w') => (OutOfFuel, w')
    end.

Declare Scope go_scope.
Delimit Scope go_scope with go.
Notation "x <- c1 ;; c2" := (bind c1 (fun x => c2))
  (at level 61, c1 at next level, right associativity) : go_scope.
Notation "c1 ;; c2" := (bind c1 (fun _ => c2))
  (at level 61, right associativity) : go_scope.
Local Open Scope go_scope.

Definition panic {A : Type} (v : string) : M A := fun w => (Panicked v, w).
Definition exit {A : Type} (code : Z) : M A := fun w => (Exited code, w).
Definition out_of_fuel {A : Type} : M A := fun w => (OutOfFuel, w).

Definition emit (e : Event) : M unit :=
  fun w => (Returned tt,
            {| logger := logger w; events := events w ++ [e]; tick := tick w |}).

(** A call to the environment. *)
Definition ask {A : Type} (f : nat -> A) : M A :=
  fun w => (Returned (f (tick w)),
            {| logger := logger w; events := events w; tick := S (tick w) |}).

(** A call to a library function that may panic. *)
Definition ask_ext {A : Type} (f : nat -> Ext A) : M A :=
  r <- ask f ;;
  match r with
  | ExtReturn a => ret a
  | ExtPanic v => panic v
  end.

Definition get_logger : M traceLog.t := fun w => (Returned (logger w), w).

Definition set_logger (l : traceLog.t) : M unit :=
  fun w => (Returned tt, {| logger := l; events := events w; tick := tick w |}).

Definition with_Serialize (b : bool) (l : traceLog.t) : traceLog.t :=
  {| traceLog.LogLevel := traceLog.LogLevel l;
     traceLog.Serialize := b;
     traceLog.EmailConfiguration := traceLog.EmailConfiguration l;
     traceLog.Trace := traceLog.Trace l;
     traceLog.Info := traceLog.Info l;
     traceLog.Warning := traceLog.Warning l;
     traceLog.Error := traceLog.Error l;
     traceLog.File := traceLog.File l;
     traceLog.LogFile := traceLog.LogFile l |}.

Definition with_EmailConfiguration (c : option emailConfiguration)
  (l : traceLog.t) : traceLog.t :=
  {| traceLog.LogLevel := traceLog.LogLevel l;
     traceLog.Serialize := traceLog.Serialize l;
     traceLog.EmailConfiguration := c;
     traceLog.Trace := traceLog.Trace l;
     traceLog.Info := traceLog.Info l;
     traceLog.Warning := traceLog.Warning l;
     traceLog.Error := traceLog.Error l;
     traceLog.File := traceLog.File l;
     traceLog.LogFile := traceLog.LogFile l |}.

Definition nilDereference : string :=
  "runtime error: invalid memory address or nil pointer dereference".
Definition indexOutOfRange : string := "runtime error: index out of range".

(** [logger.Serialize.Lock()]: a goroutine that locks a locked mutex
    waits; run alone, it waits for ever. *)
Definition Lock : M unit :=
  l <- get_logger ;;
  if traceLog.Serialize l then (fun w => (Stuck, w))
  else set_logger (with_Serialize true l) ;; emit EvLock.

(** [logger.Serialize.Unlock()]: unlocking an unlocked mutex is a fatal
    runtime error. *)
Definition Unlock : M unit :=
  l <- get_logger ;;
  if traceLog.Serialize l then set_logger (with_Serialize false l) ;; emit EvUnlock
  else exit 2.

(** [logger.<Severity>.Output(calldepth, s)]. The error [Output] returns
    is dropped by every caller. *)
Definition Output (s : Severity) (calldepth : Z) (line : string) : M unit :=
  l <- get_logger ;;
  match logger_of l s with
  | Some lg => emit (EvOutput lg calldepth line)
  | None => panic nilDereference
  end.

(** The point at which a line has been put together. *)
Definition composed (line : string) : M string :=
  emit (EvFormat line) ;; ret line.

(** [defer traceLog.CatchPanic(...)] around a function body: the deferred
    call runs when the body returns or panics, with [recover()] yielding
    the panic value if there is one; a recovered function returns the value
    [zero] of its unnamed result. Deferred calls do not run when the
    process exits. *)
Definition deferred {A B : Type} (catch : option string -> M B) (zero : A)
  (body : M A) : M A :=
  fun w =>
    match body w with
    | (Returned a, w1) => (catch None ;; ret a) w1
    | (Panicked r, w1) => (catch (Some r) ;; ret zero) w1
    | other => other
    end.

(** [for _, x := range xs { body }] *)
Fixpoint range {A : Type} (xs : list A) (body : A -> M unit) : M unit :=
  match xs with
  | [] => ret tt
  | x :: rest => body x ;; range rest body
  end.

(** [parts[i]] *)
Definition index (parts : list string) (i : nat) : M string :=
  match nth_error parts i with
  | Some p => ret p
  | None => panic indexOutOfRange
  end.

(** ** The package *)

Section Package.

Variable env : Env.

(** *** The alert path (tracelog.go, lines 169-214 and 354-377) *)

(** [EmailScript] *)
Definition EmailScript : string :=
  "From: {{.From}}" ++ GoStrings.LF ++
  "To: {{.To}}" ++ GoStrings.LF ++
  "Subject: {{.Subject}}" ++ GoStrings.LF ++
  "MIME-version: 1.0" ++ GoStrings.LF ++
  "Content-Type: text/html; charset=" ++ GoStrings.DQ ++ "UTF-8" ++ GoStrings.DQ
  ++ GoStrings.LF ++ GoStrings.LF ++
  "<html><body>{{.Message}}</body></html>".

(** [ConfigureEmail] *)
Definition ConfigureEmail (host : string) (port : Z) (userName password : string)
  (to : list string) : M unit :=
  l <- get_logger ;;
  set_logger
    (with_EmailConfiguration
       (Some {| Host := host; Port := port; UserName := userName;
                Password := password; To := to;
                Auth := ("", userName, password, host);
                Template := EmailScript |}) l).

(** The body of [SendEmailException], between the [defer] and the end. *)
Definition SendEmailException_body (subject message : string) (a : list Value)
  : M error :=
  let err : error := None in
  l <- get_logger ;;
  match traceLog.EmailConfiguration l with
  | None => ret err
  | Some cfg =>
      let parameters :=
        {| param_From := UserName cfg;
           param_To := GoStrings.Join (To cfg) ",";
           param_Subject := subject;
           param_Message := fmt_Sprintf env message a |} in
      emit (EvExecute parameters) ;;
      emailMessage <-
        ask_ext (fun t => template_Execute env t (Template cfg) parameters) ;;
      let addr := GoFmt.Sprintf "%s:%d" [VString (Host cfg); VInt (Port cfg)] in
      emit (EvSendMail addr (UserName cfg) (To cfg) emailMessage) ;;
      err <-
        ask_ext (fun t => smtp_SendMail env t addr (Auth cfg) (UserName cfg)
                            (To cfg) emailMessage) ;;
      ret err
  end.

(** [CatchPanic], given the function it sends the alert with. [err] is
    the pointer argument: [None] for [nil], [Some e] for a slot that
    holds [e]; [r] is what [recover()] returns. The result is what the
    slot holds afterwards. *)
Definition CatchPanic_with (send : string -> string -> list Value -> M error)
  (err : option error) (functionName : string) (r : option string)
  : M (option error) :=
  match r with
  | Some r =>
      buf <- ask (runtime_Stack env) ;;
      send systemAlertSubject "%s : PANIC Defered [%s] : Stack Trace : %s"
           [VString functionName; VString r; VString buf] ;;
      match err with
      | Some _ => ret (Some (Some (GoFmt.Sprintf "%v" [VString r])))
      | None => ret None
      end
  | None => ret err
  end.

(** [SendEmailException] and [CatchPanic] call each other; [fuel] bounds
    the depth of that recursion. The slot [&err] holds [nil] whenever
    the body panics, and holds the result when the body returns. *)
Fixpoint SendEmailException (fuel : nat) (subject message : string)
  (a : list Value) : M error :=
  match fuel with
  | O => out_of_fuel
  | S fuel' =>
      fun w =>
        match SendEmailException_body subject message a w with
        | (Returned e, w1) =>
            (CatchPanic_with (SendEmailException fuel') (Some e)
               "SendEmailException" None ;; ret e) w1
        | (Panicked r, w1) =>
            (CatchPanic_with (SendEmailException fuel') (Some None)
               "SendEmailException" (Some r) ;; ret None) w1
        | other => other
        end
  end.

Definition CatchPanic (fuel : nat) (err : option error) (functionName : string)
  (r : option string) : M (option error) :=
  CatchPanic_with (SendEmailException fuel) err functionName r.

(** *** The logging calls (logcalls.go and its call-depth twin) *)

Definition Startedcd (callDepth : Z) (title functionName : string) : M unit :=
  Lock ;;
  line <- composed (GoFmt.Sprintf ("%s : %s : Started" ++ GoStrings.LF)
                      [VString title; VString functionName]) ;;
  Output SevTrace callDepth line ;;
  Unlock.

Definition Startedfcd (callDepth : Z) (title functionName format : string)
  (a : list Value) : M unit :=
  Lock ;;
  line <- composed (GoFmt.Sprintf ("%s : %s : Started : %s" ++ GoStrings.LF)
                      [VString title; VString functionName;
                       VString (fmt_Sprintf env format a)]) ;;
  Output SevTrace callDepth line ;;
  Unlock.

Definition Completedcd (callDepth : Z) (title functionName : string) : M unit :=
  Lock ;;
  line <- composed (GoFmt.Sprintf ("%s : %s : Completed" ++ GoStrings.LF)
                      [VString title; VString functionName]) ;;
  Output SevTrace callDepth line ;;
  Unlock.

Definition Completedfcd (callDepth : Z) (title functionName format : string)
  (a : list Value) : M unit :=
  Lock ;;
  line <- composed (GoFmt.Sprintf ("%s : %s : Completed : %s" ++ GoStrings.LF)
                      [VString title; VString functionName;
                       VString (fmt_Sprintf env format a)]) ;;
  Output SevTrace callDepth line ;;
  Unlock.

Definition CompletedErrorcd (callDepth : Z) (err : error)
  (title functionName : string) : M unit :=
  Lock ;;
  line <- composed (GoFmt.Sprintf ("%s : %s : Completed : ERROR : %s" ++ GoStrings.LF)
                      [VString title; VString functionName; VError err]) ;;
  Output SevError callDepth line ;;
  Unlock.

Definition CompletedErrorfcd (callDepth : Z) (err : error)
  (title functionName format : string) (a : list Value) : M unit :=
  Lock ;;
  line <- composed (GoFmt.Sprintf
                      ("%s : %s : Completed : ERROR : %s : %s" ++ GoStrings.LF)
                      [VString title; VString functionName;
                       VString (fmt_Sprintf env format a); VError err]) ;;
  Output SevError callDepth line ;;
  Unlock.

Definition Tracecd (callDepth : Z) (title functionName format : string)
  (a : list Value) : M unit :=
  Lock ;;
  line <- composed (GoFmt.Sprintf ("%s : %s : Info : %s" ++ GoStrings.LF)
                      [VString title; VString functionName;
                       VString (fmt_Sprintf env format a)]) ;;
  Output SevTrace callDepth line ;;
  Unlock.

Definition Infocd (callDepth : Z) (title functionName format : string)
  (a : list Value) : M unit :=
  Lock ;;
  line <- composed (GoFmt.Sprintf ("%s : %s : Info : %s" ++ GoStrings.LF)
                      [VString title; VString functionName;
                       VString (fmt_Sprintf env format a)]) ;;
  Output SevInfo callDepth line ;;
  Unlock.

Definition Warningcd (callDepth : Z) (title functionName format : string)
  (a : list Value) : M unit :=
  Lock ;;
  line <- composed (GoFmt.Sprintf ("%s : %s : Info : %s" ++ GoStrings.LF)
                      [VString title; VString functionName;
                       VString (fmt_Sprintf env format a)]) ;;
  Output SevWarning callDepth line ;;
  Unlock.

Definition Errorcd (callDepth : Z) (err : error) (title functionName : string)
  : M unit :=
  Lock ;;
  line <- composed (GoFmt.Sprintf ("%s : %s : ERROR : %s" ++ GoStrings.LF)
                      [VString title; VString functionName; VError err]) ;;
  Output SevError callDepth line ;;
  Unlock.

Definition Errorfcd (callDepth : Z) (err : error)
  (title functionName format : string) (a : list Value) : M unit :=
  Lock ;;
  line <- composed (GoFmt.Sprintf ("%s : %s : ERROR : %s : %s" ++ GoStrings.LF)
                      [VString title; VString functionName;
                       VString (fmt_Sprintf env format a); VError err]) ;;
  Output SevError callDepth line ;;
  Unlock.

Definition Alertcd (fuel : nat) (callDepth : Z)
  (subject title functionName format : string) (a : list Value) : M unit :=
  message <- composed (GoFmt.Sprintf ("%s : %s : ALERT : %s" ++ GoStrings.LF)
                         [VString title; VString functionName;
                          VString (fmt_Sprintf env format a)]) ;;
  Lock ;;
  Output SevError callDepth message ;;
  Unlock ;;
  SendEmailException fuel subject message [] ;;
  ret tt.

Definition CompletedAlertcd (fuel : nat) (callDepth : Z)
  (subject title functionName format : string) (a : list Value) : M unit :=
  message <- composed (GoFmt.Sprintf
                         ("%s : %s : Completed : ALERT : %s" ++ GoStrings.LF)
                         [VString title; VString functionName;
                          VString (fmt_Sprintf env format a)]) ;;
  Lock ;;
  Output SevError callDepth message ;;
  Unlock ;;
  SendEmailException fuel subject message [] ;;
  ret tt.

Definition Started (title functionName : string) : M unit :=
  Lock ;;
  line <- composed (GoFmt.Sprintf ("%s : %s : Started" ++ GoStrings.LF)
                      [VString title; VString functionName]) ;;
  Output SevTrace 2 line ;;
  Unlock.

Definition Startedf (title functionName format : string) (a : list Value)
  : M unit :=
  Lock ;;
  line <- composed (GoFmt.Sprintf ("%s : %s : Started : %s" ++ GoStrings.LF)
                      [VString title; VString functionName;
                       VString (fmt_Sprintf env format a)]) ;;
  Output SevTrace 2 line ;;
  Unlock.

Definition Completed (title functionName : string) : M unit :=
  Lock ;;
  line <- composed (GoFmt.Sprintf ("%s : %s : Completed" ++ GoStrings.LF)
                      [VString title; VString functionName]) ;;
  Output SevTrace 2 line ;;
  Unlock.

Definition Completedf (title functionName format : string) (a : list Value)
  : M unit :=
  Lock ;;
  line <- composed (GoFmt.Sprintf ("%s : %s : Completed : %s" ++ GoStrings.LF)
                      [VString title; VString functionName;
                       VString (fmt_Sprintf env format a)]) ;;
  Output SevTrace 2 line ;;
  Unlock.

Definition CompletedError (err : error) (title functionName : string) : M unit :=
  Lock ;;
  line <- composed (GoFmt.Sprintf ("%s : %s : Completed : ERROR : %s" ++ GoStrings.LF)
                      [VString title; VString functionName; VError err]) ;;
  Output SevError 2 line ;;
  Unlock.

Definition CompletedErrorf (err : error) (title functionName format : string)
  (a : list Value) : M unit :=
  Lock ;;
  line <- composed (GoFmt.Sprintf
                      ("%s : %s : Completed : ERROR : %s : %s" ++ GoStrings.LF)
                      [VString title; VString functionName;
                       VString (fmt_Sprintf env format a); VError err]) ;;
  Output SevError 2 line ;;
  Unlock.

Definition Trace (title functionName format : string) (a : list Value) : M unit :=
  Lock ;;
  line <- composed (GoFmt.Sprintf ("%s : %s : Info : %s" ++ GoStrings.LF)
                      [VString title; VString functionName;
                       VString (fmt_Sprintf env format a)]) ;;
  Output SevTrace 2 line ;;
  Unlock.

Definition Info (title functionName format : string) (a : list Value) : M unit :=
  Lock ;;
  line <- composed (GoFmt.Sprintf ("%s : %s : Info : %s" ++ GoStrings.LF)
                      [VString title; VString functionName;
                       VString (fmt_Sprintf env format a)]) ;;
  Output SevInfo 2 line ;;
  Unlock.

Definition Warning (title functionName format : string) (a : list Value)
  : M unit :=
  Lock ;;
  line <- composed (GoFmt.Sprintf ("%s : %s : Info : %s" ++ GoStrings.LF)
                      [VString title; VString functionName;
                       VString (fmt_Sprintf env format a)]) ;;
  Output SevWarning 2 line ;;
  Unlock.

Definition Error (err : error) (title functionName : string) : M unit :=
  Lock ;;
  line <- composed (GoFmt.Sprintf ("%s : %s : ERROR : %s" ++ GoStrings.LF)
                      [VString title; VString functionName; VError err]) ;;
  Output SevError 2 line ;;
  Unlock.

Definition Errorf (err : error) (title functionName format : string)
  (a : list Value) : M unit :=
  Lock ;;
  line <- composed (GoFmt.Sprintf ("%s : %s : ERROR : %s : %s" ++ GoStrings.LF)
                      [VString title; VString functionName;
                       VString (fmt_Sprintf env format a); VError err]) ;;
  Output SevError 2 line ;;
  Unlock.

Definition Alert (fuel : nat) (subject title functionName format : string)
  (a : list Value) : M unit :=
  message <- composed (GoFmt.Sprintf ("%s : %s : ALERT : %s" ++ GoStrings.LF)
                         [VString title; VString functionName;
                          VString (fmt_Sprintf env format a)]) ;;
  Lock ;;
  Output SevError 2 message ;;
  Unlock ;;
  SendEmailException fuel subject message [] ;;
  ret tt.

Definition CompletedAlert (fuel : nat) (subject title functionName format : string)
  (a : list Value) : M unit :=
  message <- composed (GoFmt.Sprintf
                         ("%s : %s : Completed : ALERT : %s" ++ GoStrings.LF)
                         [VString title; VString functionName;
                          VString (fmt_Sprintf env format a)]) ;;
  Lock ;;
  Output SevError 2 message ;;
  Unlock ;;
  SendEmailException fuel subject message [] ;;
  ret tt.

(** *** Start, StartFile, Stop and the retention sweep (tracelog.go) *)

(** [Start] *)
Definition Start (logLevel : Z) : M unit :=
  set_logger (turnOnLogging logLevel None).

(** One turn of the loop of [LogDirectoryCleanup] (lines 297-345);
    [continue] ends the turn. *)
Definition cleanup_entry (baseFilePath : string) (compareDate : Z)
  (fileInfo : FileInfo) : M unit :=
  if negb (IsDir fileInfo) then ret tt
  else
    let parts := GoStrings.Split (Name fileInfo) "-" in
    p0 <- index parts 0 ;;
    let '(year, err) := GoStrings.Atoi p0 in
    match err with
    | Some _ =>
        Errorf err "main" "LogDirectoryCleanup"
               "Attempting To Convert Directory [%s]" [VString (Name fileInfo)]
    | None =>
    p1 <- index parts 1 ;;
    let '(month, err) := GoStrings.Atoi p1 in
    match err with
    | Some _ =>
        Errorf err "main" "LogDirectoryCleanup"
               "Attempting To Convert Directory [%s]" [VString (Name fileInfo)]
    | None =>
    p2 <- index parts 2 ;;
    let '(day, err) := GoStrings.Atoi p2 in
    match err with
    | Some _ =>
        Errorf err "main" "LogDirectoryCleanup"
               "Attempting To Convert Directory [%s]" [VString (Name fileInfo)]
    | None =>
    let fullFileName :=
      GoFmt.Sprintf "%s/%s" [VString baseFilePath; VString (Name fileInfo)] in
    let directoryDate := GoTime.Date year month day in
    let daysOld := GoTime.wholeDays (GoTime.Sub compareDate directoryDate) in
    Trace "main" "LogDirectoryCleanup" "Checking Directory[%s] DaysOld[%d]"
          [VString fullFileName; VInt daysOld] ;;
    if 0 <=? daysOld then
      Trace "main" "LogDirectoryCleanup" "Removing Directory[%s]"
            [VString fullFileName] ;;
      emit (EvRemoveAll fullFileName) ;;
      err <- ask (fun t => os_RemoveAll env t fullFileName) ;;
      match err with
      | Some _ =>
          Trace "main" "LogDirectoryCleanup"
                "Attempting To Remove Directory [%s]" [VString fullFileName]
      | None =>
          Trace "main" "LogDirectoryCleanup" "Directory Removed [%s]"
                [VString fullFileName]
      end
    else ret tt
    end end end.

(** The body of [LogDirectoryCleanup], between the [defer] and the end. *)
Definition LogDirectoryCleanup_body (baseFilePath : string) (daysToKeep : Z)
  : M unit :=
  Startedf "main" "LogDirectoryCleanup" "BaseFilePath[%s] DaysToKeep[%d]"
           [VString baseFilePath; VInt daysToKeep] ;;
  emit (EvReadDir baseFilePath) ;;
  listing <- ask (fun t => ioutil_ReadDir env t baseFilePath) ;;
  match listing with
  | inr err => CompletedError (Some err) "main" "LogDirectoryCleanup"
  | inl fileInfos =>
      currentDate <- ask (time_Now env) ;;
      let compareDate :=
        GoTime.Date (GoTime.Year currentDate) (GoTime.Month currentDate)
                    (GoTime.Day currentDate - daysToKeep) in
      Trace "main" "LogDirectoryCleanup" "CompareDate[%v]" [VTime compareDate] ;;
      range fileInfos (cleanup_entry baseFilePath compareDate) ;;
      Completed "main" "LogDirectoryCleanup"
  end.

(** [LogDirectoryCleanup] *)
Definition LogDirectoryCleanup (fuel : nat) (baseFilePath : string)
  (daysToKeep : Z) : M unit :=
  deferred (CatchPanic fuel None "LogDirectoryCleanup") tt
    (LogDirectoryCleanup_body baseFilePath daysToKeep).

(** [log.Fatalf]: print, then [os.Exit(1)]. *)
Definition log_Fatalf (format : string) (a : list Value) : M unit :=
  emit (EvFatal (GoFmt.Sprintf format a)) ;; exit 1.

(** [StartFile] *)
Definition StartFile (fuel : nat) (logLevel : Z) (baseFilePath : string)
  (daysToKeep : Z) : M unit :=
  let baseFilePath := GoStrings.TrimRight baseFilePath "/" in
  currentDate <- ask (time_Now env) ;;
  now2 <- ask (time_Now env) ;;
  let dateDirectory := GoTime.FormatDate now2 in
  let dateFile := GoTime.FormatDateTime currentDate in
  let filePath :=
    GoFmt.Sprintf "%s/%s/" [VString baseFilePath; VString dateDirectory] in
  let fileName :=
    GoStrings.ReplaceAll (GoFmt.Sprintf "%s.txt" [VString dateFile]) " " "-" in
  emit (EvMkdirAll filePath) ;;
  err <- ask (fun t => os_MkdirAll env t filePath) ;;
  match err with
  | Some _ =>
      log_Fatalf ("main : Start : Failed to Create log directory : %s : %s"
                  ++ GoStrings.LF) [VString filePath; VError err]
  | None =>
      let path := GoFmt.Sprintf "%s%s" [VString filePath; VString fileName] in
      emit (EvCreate path) ;;
      created <- ask (fun t => os_Create env t path) ;;
      match created with
      | inr err =>
          log_Fatalf ("main : Start : Failed to Create log file : %s : %s"
                      ++ GoStrings.LF) [VString fileName; VError (Some err)]
      | inl logf =>
          set_logger (turnOnLogging logLevel (Some (OsFile logf))) ;;
          LogDirectoryCleanup fuel baseFilePath daysToKeep
      end
  end.

(** [Stop] *)
Definition Stop : M error :=
  Started "main" "Stop" ;;
  let err : error := None in
  l <- get_logger ;;
  err <- match traceLog.LogFile l with
         | Some f =>
             Trace "main" "Stop" "Closing File" [] ;;
             emit (EvClose f) ;;
             ask (fun t => File_Close env t f)
         | None => ret err
         end ;;
  Completed "main" "Stop" ;;
  ret err.

(** [LogLevel] *)
Definition LogLevel : M Z :=
  l <- get_logger ;; ret (traceLog.LogLevel l).

End Package.

(** ** Observations on worlds and traces *)

Definition console_active (logLevel : Z) (s : Severity) : bool :=
  match sink_of (turnOnLogging logLevel None) s with
  | Some c => active c
  | None => false
  end.

Definition file_included (logLevel : Z) (fd : nat) (s : Severity) : bool :=
  match sink_of (turnOnLogging logLevel (Some (OsFile fd))) s with
  | Some w => writes_to_file fd w
  | None => false
  end.

(** The logger can take a line: the mutex is free and the four loggers
    exist, as after [Start] or [StartFile]. *)
Definition ready (l : traceLog.t) : bool :=
  negb (traceLog.Serialize l)
  && match traceLog.Trace l, traceLog.Info l, traceLog.Warning l, traceLog.Error l with
     | Some _, Some _, Some _, Some _ => true
     | _, _, _, _ => false
     end.

(** The lines handed to loggers, in order. *)
Fixpoint output_lines (evs : list Event) : list string :=
  match evs with
  | [] => []
  | EvOutput _ _ s :: rest => s :: output_lines rest
  | _ :: rest => output_lines rest
  end.

(** The paths handed to [os.RemoveAll], in order. *)
Fixpoint removed (evs : list Event) : list string :=
  match evs with
  | [] => []
  | EvRemoveAll p :: rest => p :: removed rest
  | _ :: rest => removed rest
  end.

(** The files closed, in order. *)
Fixpoint closed (evs : list Event) : list nat :=
  match evs with
  | [] => []
  | EvClose f :: rest => f :: closed rest
  | _ :: rest => closed rest
  end.

(** The attempts to render the template or to send mail. *)
Fixpoint mail_attempts (evs : list Event) : list Event :=
  match evs with
  | [] => []
  | EvExecute p :: rest => EvExecute p :: mail_attempts rest
  | EvSendMail a f t m :: rest => EvSendMail a f t m :: mail_attempts rest
  | _ :: rest => mail_attempts rest
  end.

(** A world that holds the logger [l], with no event recorded and no call
    made to the environment yet. *)
Definition fresh (l : traceLog.t) : World :=
  {| logger := l; events := []; tick := 0 |}.

(** ** A simulated environment for concrete runs *)

Definition clock_2024_06_10 : GoTime.Clock :=
  {| GoTime.Year := 2024; GoTime.Month := 6; GoTime.Day := 10;
     GoTime.Hour := 8; GoTime.Minute := 24; GoTime.Second := 32 |}.

(** What executing the template of [EmailScript] writes for [p]. *)
Definition rendered_email (p : emailParameters) : string :=
  "From: " ++ param_From p ++ GoStrings.LF ++
  "To: " ++ param_To p ++ GoStrings.LF ++
  "Subject: " ++ param_Subject p ++ GoStrings.LF ++
  "MIME-version: 1.0" ++ GoStrings.LF ++
  "Content-Type: text/html; charset=" ++ GoStrings.DQ ++ "UTF-8" ++ GoStrings.DQ
  ++ GoStrings.LF ++ GoStrings.LF ++
  "<html><body>" ++ param_Message p ++ "</body></html>".

(** A well-behaved environment: the clock shows 10 June 2024, the base
    directory holds [listing], no call fails, [os.Create] returns
    descriptor 3, closing a file reports [closeErr]. *)
Definition sim (listing : list FileInfo) (closeErr : error) : Env :=
  {| fmt_Sprintf := GoFmt.Sprintf;
     time_Now := fun _ => clock_2024_06_10;
     os_MkdirAll := fun _ _ => None;
     os_Create := fun _ _ => inl 3%nat;
     ioutil_ReadDir := fun _ _ => inl listing;
     os_RemoveAll := fun _ _ => None;
     File_Close := fun _ _ => closeErr;
     runtime_Stack := fun _ => "goroutine 1 [running]:";
     template_Execute := fun _ _ p => ExtReturn (rendered_email p);
     smtp_SendMail := fun _ _ _ _ _ _ => ExtReturn None |}.

(** The same with an empty base directory and a mail client that panics
    whenever [panics] holds of the number of the call. *)
Definition sim_mail (panics : nat -> bool) : Env :=
  {| fmt_Sprintf := GoFmt.Sprintf;
     time_Now := fun _ => clock_2024_06_10;
     os_MkdirAll := fun _ _ => None;
     os_Create := fun _ _ => inl 3%nat;
     ioutil_ReadDir := fun _ _ => inl [];
     os_RemoveAll := fun _ _ => None;
     File_Close := fun _ _ => None;
     runtime_Stack := fun _ => "goroutine 1 [running]:";
     template_Execute := fun _ _ p => ExtReturn (rendered_email p);
     smtp_SendMail := fun t _ _ _ _ _ =>
       if panics t then ExtPanic "smtp: connection state lost" else ExtReturn None |}.

Definition dir (name : string) : FileInfo := {| Name := name; IsDir := true |}.

(** ** The public logging calls as data *)

Inductive Kind : Type :=
| KStarted | KStartedf | KCompleted | KCompletedf
| KCompletedError | KCompletedErrorf
| KTrace | KInfo | KWarning
| KError | KErrorf
| KAlert | KCompletedAlert.

(** A call of one of the logging functions: [depth] is [None] for the
    functions of logcalls.go and [Some callDepth] for their [cd] twins;
    the fields a function does not take are ignored. *)
Record LogCall : Type := {
  call_kind : Kind;
  call_depth : option Z;
  call_subject : string;
  call_err : error;
  call_title : string;
  call_function : string;
  call_format : string;
  call_args : list Value
}.

Definition run_call (env : Env) (fuel : nat) (c : LogCall) : M unit :=
  let t := call_title c in
  let f := call_function c in
  let fmt := call_format c in
  let a := call_args c in
  let e := call_err c in
  let sub := call_subject c in
  match call_depth c, call_kind c with
  | None, KStarted => Started t f
  | None, KStartedf => Startedf env t f fmt a
  | None, KCompleted => Completed t f
  | None, KCompletedf => Completedf env t f fmt a
  | None, KCompletedError => CompletedError e t f
  | None, KCompletedErrorf => CompletedErrorf env e t f fmt a
  | None, KTrace => Trace env t f fmt a
  | None, KInfo => Info env t f fmt a
  | None, KWarning => Warning env t f fmt a
  | None, KError => Error e t f
  | None, KErrorf => Errorf env e t f fmt a
  | None, KAlert => Alert env fuel sub t f fmt a
  | None, KCompletedAlert => CompletedAlert env fuel sub t f fmt a
  | Some d, KStarted => Startedcd d t f
  | Some d, KStartedf => Startedfcd env d t f fmt a
  | Some d, KCompleted => Completedcd d t f
  | Some d, KCompletedf => Completedfcd env d t f fmt a
  | Some d, KCompletedError => CompletedErrorcd d e t f
  | Some d, KCompletedErrorf => CompletedErrorfcd env d e t f fmt a
  | Some d, KTrace => Tracecd env d t f fmt a
  | Some d, KInfo => Infocd env d t f fmt a
  | Some d, KWarning => Warningcd env d t f fmt a
  | Some d, KError => Errorcd d e t f
  | Some d, KErrorf => Errorfcd env d e t f fmt a
  | Some d, KAlert => Alertcd env fuel d sub t f fmt a
  | Some d, KCompletedAlert => CompletedAlertcd env fuel d sub t f fmt a
  end.

(** The tags of the line format (specification, section 6). *)
Definition Tags : list string :=
  ["Started"; "Completed"; "Info"; "ERROR"; "ALERT";
   "Completed : ERROR"; "Completed : ALERT"].

Definition field (o : option string) : string :=
  match o with
  | Some s => " : " ++ s
  | None => ""
  end.

(** The template as the specification writes it: the message is always
    there, the error may follow. *)
Definition matches_template (title functionName line : string) : Prop :=
  exists tag message err,
    In tag Tags /\
    line = title ++ " : " ++ functionName ++ " : " ++ tag ++ " : " ++ message
           ++ field err ++ GoStrings.LF.

(** The line with an optional message and an optional error. *)
Definition render (title functionName tag : string) (message err : option string)
  : string :=
  title ++ " : " ++ functionName ++ " : " ++ tag ++ field message ++ field err
  ++ GoStrings.LF.

Definition tag_of (k : Kind) : string :=
  match k with
  | KStarted | KStartedf => "Started"
  | KCompleted | KCompletedf => "Completed"
  | KCompletedError | KCompletedErrorf => "Completed : ERROR"
  | KTrace | KInfo | KWarning => "Info"
  | KError | KErrorf => "ERROR"
  | KAlert => "ALERT"
  | KCompletedAlert => "Completed : ALERT"
  end.

(** Which calls carry a message, and which an error. *)
Definition has_message (k : Kind) : bool :=
  match k with
  | KStarted | KCompleted | KCompletedError | KError => false
  | _ => true
  end.

Definition has_error (k : Kind) : bool :=
  match k with
  | KCompletedError | KCompletedErrorf | KError | KErrorf => true
  | _ => false
  end.

Definition severity_of (k : Kind) : Severity :=
  match k with
  | KInfo => SevInfo
  | KWarning => SevWarning
  | KCompletedError | KCompletedErrorf | KError | KErrorf
  | KAlert | KCompletedAlert => SevError
  | _ => SevTrace
  end.

Definition expected_line (env : Env) (c : LogCall) : string :=
  render (call_title c) (call_function c) (tag_of (call_kind c))
    (if has_message (call_kind c)
     then Some (fmt_Sprintf env (call_format c) (call_args c)) else None)
    (if has_error (call_kind c)
     then Some (GoFmt.show "s" (VError (call_err c))) else None).

(** ** Concurrent callers

    A goroutine is the list of steps it still has to take: the events of
    its calls, with every [Output] split into the bytes of its line (the
    header the platform logger puts before the line is left out). The
    machine holds the mutex and the goroutines; a schedule names the
    goroutine that takes each step. *)

Inductive Step : Type :=
| SLock
| SUnlock
| SWrite (w : Writer) (b : ascii)
| STau (e : Event).

Definition steps_of_event (e : Event) : list Step :=
  match e with
  | EvLock => [SLock]
  | EvUnlock => [SUnlock]
  | EvOutput lg _ s => map (SWrite (logger_out lg)) (list_ascii_of_string s)
  | e => [STau e]
  end.

Definition steps_of (evs : list Event) : list Step := flat_map steps_of_event evs.

Record Machine : Type := {
  holder : option nat;
  goroutines : list (list Step)
}.

Fixpoint update_nth {A : Type} (l : list A) (i : nat) (x : A) : list A :=
  match l, i with
  | [], _ => []
  | _ :: t, O => x :: t
  | h :: t, S j => h :: update_nth t j x
  end.

(** Goroutine [i] takes its next step, if it can: [Lock] needs a free
    mutex, [Unlock] a locked one. *)
Definition step (m : Machine) (i : nat) : option (Step * Machine) :=
  match nth_error (goroutines m) i with
  | Some (s :: rest) =>
      let gs := update_nth (goroutines m) i rest in
      match s with
      | SLock =>
          match holder m with
          | None => Some (s, {| holder := Some i; goroutines := gs |})
          | Some _ => None
          end
      | SUnlock =>
          match holder m with
          | Some _ => Some (s, {| holder := None; goroutines := gs |})
          | None => None
          end
      | _ => Some (s, {| holder := holder m; goroutines := gs |})
      end
  | _ => None
  end.

Fixpoint run (m : Machine) (schedule : list nat)
  : option (list (nat * Step) * Machine) :=
  match schedule with
  | [] => Some ([], m)
  | i :: rest =>
      match step m i with
      | Some (s, m') =>
          match run m' rest with
          | Some (tr, m'') => Some ((i, s) :: tr, m'')
          | None => None
          end
      | None => None
      end
  end.

(** A goroutine keeps the lock discipline: it writes only between its own
    [Lock] and [Unlock]. [inside] tells whether it holds the lock now. *)
Fixpoint disciplined (inside : bool) (steps : list Step) : bool :=
  match steps with
  | [] => negb inside
  | SLock :: rest => negb inside && disciplined true rest
  | SUnlock :: rest => inside && disciplined false rest
  | SWrite _ _ :: rest => inside && disciplined inside rest
  | STau _ :: rest => disciplined inside rest
  end.

Definition holds (h : option nat) (i : nat) : bool :=
  match h with
  | Some j => Nat.eqb j i
  | None => false
  end.

(** No torn lines: in a trace, every byte is written by the goroutine
    that holds the lock, and the sections between a [Lock] and the next
    [Unlock] belong to one goroutine each. *)
Fixpoint exclusive (h : option nat) (tr : list (nat * Step)) : bool :=
  match tr with
  | [] => true
  | (i, SLock) :: rest =>
      match h with None => exclusive (Some i) rest | Some _ => false end
  | (i, SUnlock) :: rest => holds h i && exclusive None rest
  | (i, SWrite _ _) :: rest => holds h i && exclusive h rest
  | (_, STau _) :: rest => exclusive h rest
  end.

(** [locked_while P held evs]: every event of [evs] that satisfies [P]
    happens while the lock is held. *)
Fixpoint locked_while (P : Event -> bool) (held : bool) (evs : list Event) : bool :=
  match evs with
  | [] => true
  | EvLock :: rest => locked_while P true rest
  | EvUnlock :: rest => locked_while P false rest
  | e :: rest => (if P e then held else true) && locked_while P held rest
  end.

(** A line is handed to a sink. *)
Definition is_write (e : Event) : bool :=
  match e with EvOutput _ _ _ => true | _ => false end.

(** A line is handed to a sink, or a line or an alert message is put
    together (formatted, or rendered through the mail template). *)
Definition is_write_or_composition (e : Event) : bool :=
  match e with
  | EvOutput _ _ _ | EvFormat _ | EvExecute _ => true
  | _ => false
  end.

(** The events a call adds to a world. *)
Definition events_of {A : Type} (m : M A) (w : World) : list Event :=
  skipn (List.length (events w)) (events (snd (m w))).

(** The programs of goroutines that make logging calls one after the
    other, each call on a logger that is ready. *)
Inductive caller (env : Env) : list Step -> Prop :=
| caller_done : caller env []
| caller_call (fuel : nat) (c : LogCall) (w : World) (rest : list Step) :
    ready (logger w) = true ->
    caller env rest ->
    caller env (steps_of (events_of (run_call env fuel c) w) ++ rest).

(** ** The shape the logging calls share *)

Definition add_events (w : World) (evs : list Event) : World :=
  {| logger := logger w; events := events w ++ evs; tick := tick w |}.

(** Take the lock, put the line together, hand it to the severity's
    logger, release the lock: the body of every logging call that sends no
    alert. *)
Definition log_line (s : Severity) (callDepth : Z) (line : string) : M unit :=
  Lock ;;
  line <- composed line ;;
  Output s callDepth line ;;
  Unlock.

(** The events of [log_line] on a logger that is ready. *)
Definition line_events (lg : Logger) (callDepth : Z) (line : string) : list Event :=
  [EvLock; EvFormat line; EvOutput lg callDepth line; EvUnlock].

Definition depth_of (c : LogCall) : Z :=
  match call_depth c with
  | Some d => d
  | None => 2
  end.

Definition is_alert (k : Kind) : bool :=
  match k with
  | KAlert | KCompletedAlert => true
  | _ => false
  end.

(** ** Directory names as the sweep reads them *)

(** What the loop of [LogDirectoryCleanup] makes of a directory name: a
    part that is no number, fewer than three parts, or a date. *)
Inductive Fate : Type :=
| BadNumber (err : error)
| TooShort
| Dated (year month day : Z).

Definition classify (name : string) : Fate :=
  let parts := GoStrings.Split name "-" in
  match nth_error parts 0 with
  | None => TooShort
  | Some p0 =>
      match GoStrings.Atoi p0 with
      | (_, Some e) => BadNumber (Some e)
      | (year, None) =>
          match nth_error parts 1 with
          | None => TooShort
          | Some p1 =>
              match GoStrings.Atoi p1 with
              | (_, Some e) => BadNumber (Some e)
              | (month, None) =>
                  match nth_error parts 2 with
                  | None => TooShort
                  | Some p2 =>
                      match GoStrings.Atoi p2 with
                      | (_, Some e) => BadNumber (Some e)
                      | (day, None) => Dated year month day
                      end
                  end
              end
          end
      end
  end.

(** [compareDate] for a clock reading and a retention, and [daysOld] for a
    directory date. *)
Definition compareDate_of (now : GoTime.Clock) (daysToKeep : Z) : Z :=
  GoTime.Date (GoTime.Year now) (GoTime.Month now) (GoTime.Day now - daysToKeep).

Definition daysOld_of (compareDate year month day : Z) : Z :=
  GoTime.wholeDays (GoTime.Sub compareDate (GoTime.Date year month day)).

Definition fullFileName_of (baseFilePath name : string) : string :=
  GoFmt.Sprintf "%s/%s" [VString baseFilePath; VString name].

(** The directory is due for removal. *)
Definition due (compareDate : Z) (e : FileInfo) : bool :=
  IsDir e &&
  match classify (Name e) with
  | Dated y m d => 0 <=? daysOld_of compareDate y m d
  | _ => false
  end.

(** The entry stops the sweep with an index panic. *)
Definition stops_sweep (e : FileInfo) : bool :=
  IsDir e &&
  match classify (Name e) with
  | TooShort => true
  | _ => false
  end.

(** The logger of a severity, when there is one. *)
Definition the_logger (l : traceLog.t) (s : Severity) : Logger :=
  match logger_of l s with
  | Some lg => lg
  | None => log_New Discard "" 0
  end.

(** The end of a turn of the sweep's loop, for a directory whose name
    gave the date [year]-[month]-[day] (tracelog.go, lines 323-344). *)
Definition remove_if_due (env : Env) (baseFilePath : string) (compareDate : Z)
  (name : string) (year month day : Z) : M unit :=
  let fullFileName :=
    GoFmt.Sprintf "%s/%s" [VString baseFilePath; VString name] in
  let directoryDate := GoTime.Date year month day in
  let daysOld := GoTime.wholeDays (GoTime.Sub compareDate directoryDate) in
  Trace env "main" "LogDirectoryCleanup" "Checking Directory[%s] DaysOld[%d]"
        [VString fullFileName; VInt daysOld] ;;
  if 0 <=? daysOld then
    Trace env "main" "LogDirectoryCleanup" "Removing Directory[%s]"
          [VString fullFileName] ;;
    emit (EvRemoveAll fullFileName) ;;
    err <- ask (fun t => os_RemoveAll env t fullFileName) ;;
    match err with
    | Some _ =>
        Trace env "main" "LogDirectoryCleanup"
              "Attempting To Remove Directory [%s]" [VString fullFileName]
    | None =>
        Trace env "main" "LogDirectoryCleanup" "Directory Removed [%s]"
              [VString fullFileName]
    end
  else ret tt.

(** The line [Errorf] writes for a directory name that is no date. *)
Definition convert_error_line (env : Env) (name : string) (err : error) : string :=
  render "main" "LogDirectoryCleanup" "ERROR"
    (Some (fmt_Sprintf env "Attempting To Convert Directory [%s]" [VString name]))
    (Some (GoFmt.show "s" (VError err))).

(** The entries whose turn of the loop runs to its end: those before the
    first one that stops the sweep. *)
Fixpoint reached (listing : list FileInfo) : list FileInfo :=
  match listing with
  | [] => []
  | e :: rest => if stops_sweep e then [] else e :: reached rest
  end.

(** The paths of the reached entries that are due. *)
Definition due_paths (baseFilePath : string) (compareDate : Z)
  (listing : list FileInfo) : list string :=
  map (fun e => fullFileName_of baseFilePath (Name e))
      (filter (due compareDate) (reached listing)).

(** ** Scenarios *)

(** The logger after [StartFile] with every level on and a log file with
    descriptor 3. *)
Definition started_with_file : World :=
  fresh (turnOnLogging LEVEL_TRACE (Some (OsFile 3))).

(** The sweep of a base directory [/logs] with the given entries, on
    10 June 2024, keeping 5 days. *)
Definition sweep (listing : list FileInfo) : Outcome unit * World :=
  LogDirectoryCleanup (sim listing None) 1 "/logs" 5 started_with_file.

(** ** The panic boundary *)

(** An attempt to render the template or to send mail. *)
Definition is_mail (e : Event) : bool :=
  match e with
  | EvExecute _ | EvSendMail _ _ _ _ => true
  | _ => false
  end.

(** The alert a recovered panic is reported with. *)
Definition panic_alert_arguments (functionName r buf : string) : list Value :=
  [VString functionName; VString r; VString buf].

Definition panic_alert_format : string :=
  "%s : PANIC Defered [%s] : Stack Trace : %s".

(** The world after [runtime.Stack] has been asked for the stack. *)
Definition after_Stack (w : World) : World :=
  {| logger := logger w; events := events w; tick := S (tick w) |}.

(** What the slot behind [err] holds after [CatchPanic] has recovered
    [r]. *)
Definition stored (err : option error) (r : string) : option error :=
  match err with
  | Some _ => Some (Some (GoFmt.Sprintf "%v" [VString r]))
  | None => None
  end.

(** The secondary alert [CatchPanic] sends for the panic [r] recovered in
    [functionName], in world [w]. *)
Definition secondary_alert (env : Env) (fuel : nat) (functionName r : string)
  (w : World) : Outcome error * World :=
  SendEmailException env fuel systemAlertSubject panic_alert_format
    (panic_alert_arguments functionName r (runtime_Stack env (tick w)))
    (after_Stack w).

(** The call comes back to its caller. *)
Definition comes_back {A : Type} (run_with : nat -> Outcome A * World) : Prop :=
  exists fuel a w', run_with fuel = (Returned a, w').

(** A logger with every level on and an email configuration. *)
Definition configured : World :=
  snd (ConfigureEmail "smtp.example.com" 25 "ops" "secret" ["oncall@example.com"]
         (fresh (turnOnLogging LEVEL_TRACE None))).

(** ** Goroutines that keep the lock discipline *)

(** Where a run of steps leaves the lock discipline: the flag after the
    steps, or [None] when a step breaks the discipline. *)
Fixpoint flow (inside : bool) (steps : list Step) : option bool :=
  match steps with
  | [] => Some inside
  | SLock :: rest => if inside then None else flow true rest
  | SUnlock :: rest => if inside then flow false rest else None
  | SWrite _ _ :: rest => if inside then flow inside rest else None
  | STau _ :: rest => flow inside rest
  end.

(** Every goroutine of the machine keeps the discipline from where it
    stands. *)
Definition orderly (m : Machine) : Prop :=
  forall (i : nat) (steps : list Step),
    nth_error (goroutines m) i = Some steps ->
    disciplined (holds (holder m) i) steps = true.

(** Two goroutines, an [Info] call and an [Alert] call. *)
Definition info_call : LogCall :=
  {| call_kind := KInfo; call_depth := None; call_subject := "";
     call_err := None; call_title := "main"; call_function := "load";
     call_format := "ok"; call_args := [] |}.

Definition alert_call : LogCall :=
  {| call_kind := KAlert; call_depth := None; call_subject := "disk";
     call_err := None; call_title := "main"; call_function := "save";
     call_format := "full"; call_args := [] |}.

Definition two_callers : Machine :=
  {| holder := None;
     goroutines :=
       [(steps_of (events_of (run_call (sim [] None) 1 info_call)
                             (fresh (turnOnLogging LEVEL_TRACE None))) ++ [])%list;
        (steps_of (events_of (run_call (sim [] None) 1 alert_call) configured)
         ++ [])%list] |}.

(** A schedule for [two_callers]: the second goroutine composes its
    alert, the first makes its whole call, the second goes on. *)
Definition a_schedule : list nat :=
  (1%nat :: repeat 0%nat (List.length (nth 0 (goroutines two_callers) []))
   ++ repeat 1%nat (List.length (nth 1 (goroutines two_callers) []) - 1))%list.

(** ** Further observations *)

(** Does a write to [w] reach standard output? standard error? *)
Fixpoint reaches_stdout (w : Writer) : bool :=
  match w with
  | Stdout => true
  | MultiWriter ws => existsb reaches_stdout ws
  | _ => false
  end.

Fixpoint reaches_stderr (w : Writer) : bool :=
  match w with
  | Stderr => true
  | MultiWriter ws => existsb reaches_stderr ws
  | _ => false
  end.

(** The writers the lines of a trace were handed to, in order. *)
Fixpoint output_writers (evs : list Event) : list Writer :=
  match evs with
  | [] => []
  | EvOutput lg _ _ :: rest => logger_out lg :: output_writers rest
  | _ :: rest => output_writers rest
  end.

(** The sink of a severity is open under a mask, with or without a
    file. *)
Definition sink_open (logLevel : Z) (fileHandle : option Writer) (s : Severity)
  : bool :=
  match sink_of (turnOnLogging logLevel fileHandle) s with
  | Some c => active c
  | None => false
  end.

(** The four bits the package gives a meaning. *)
Definition level_bits : Z := Z.lor (Z.lor LEVEL_TRACE LEVEL_INFO)
                                   (Z.lor LEVEL_WARN LEVEL_ERROR).

(** The same call through the [cd] twin, or through the plain function. *)
Definition with_depth (d : option Z) (c : LogCall) : LogCall :=
  {| call_kind := call_kind c; call_depth := d;
     call_subject := call_subject c; call_err := call_err c;
     call_title := call_title c; call_function := call_function c;
     call_format := call_format c; call_args := call_args c |}.

(** The parameters [SendEmailException] hands to the template, and the
    address it sends to. *)
Definition mail_parameters (env : Env) (cfg : emailConfiguration)
  (subject message : string) (a : list Value) : emailParameters :=
  {| param_From := UserName cfg;
     param_To := GoStrings.Join (To cfg) ",";
     param_Subject := subject;
     param_Message := fmt_Sprintf env message a |}.

Definition mail_address (cfg : emailConfiguration) : string :=
  Host cfg ++ ":" ++ GoStrings.Itoa (Port cfg).

(** The configuration [ConfigureEmail] installs. *)
Definition configuration (host : string) (port : Z) (userName password : string)
  (to : list string) : emailConfiguration :=
  {| Host := host; Port := port; UserName := userName; Password := password;
     To := to; Auth := ("", userName, password, host); Template := EmailScript |}.

(** The directory and the file [StartFile] creates, for the clock reading
    each name is taken from. *)
Definition dateDirectory_of (baseFilePath : string) (now : GoTime.Clock) : string :=
  GoFmt.Sprintf "%s/%s/"
    [VString (GoStrings.TrimRight baseFilePath "/");
     VString (GoTime.FormatDate now)].

Definition fileName_of (now : GoTime.Clock) : string :=
  GoStrings.ReplaceAll
    (GoFmt.Sprintf "%s.txt" [VString (GoTime.FormatDateTime now)]) " " "-".

(** The directory bears a date [daysToKeep] days before [today], or an
    earlier one. *)
Definition expired (today : GoTime.Clock) (daysToKeep : Z) (e : FileInfo) : bool :=
  IsDir e &&
  match classify (Name e) with
  | Dated y m d =>
      GoTime.Date y m d
      <=? GoTime.Date (GoTime.Year today) (GoTime.Month today) (GoTime.Day today)
          - daysToKeep
  | _ => false
  end.

(** The text has no dash. *)
Fixpoint dash_free (s : string) : bool :=
  match s with
  | EmptyString => true
  | String c rest => negb (Ascii.eqb c "-") && dash_free rest
  end.

(** The well-behaved environment, but for a base directory that cannot be
    listed. *)
Definition sim_unreadable (err : string) : Env :=
  {| fmt_Sprintf := GoFmt.Sprintf;
     time_Now := fun _ => clock_2024_06_10;
     os_MkdirAll := fun _ _ => None;
     os_Create := fun _ _ => inl 3%nat;
     ioutil_ReadDir := fun _ _ => inr err;
     os_RemoveAll := fun _ _ => None;
     File_Close := fun _ _ => None;
     runtime_Stack := fun _ => "goroutine 1 [running]:";
     template_Execute := fun _ _ p => ExtReturn (rendered_email p);
     smtp_SendMail := fun _ _ _ _ _ _ => ExtReturn None |}.

(** * Properties *)

(** ** The destination router *)

Ltac split_mask L :=
  destruct (bit_set L LEVEL_TRACE), (bit_set L LEVEL_INFO),
           (bit_set L LEVEL_WARN), (bit_set L LEVEL_ERROR).

Lemma console_sink_cascade (L : Z) (s : Severity) :
  sink_of (turnOnLogging L None) s = Some (cascade L s).
Proof.
  unfold sink_of, logger_of, turnOnLogging, cascade.
  split_mask L; destruct s; reflexivity.
Qed.

(** C1. For every level mask and each of the four severities, the sink
    that [turnOnLogging(L, nil)] gives the severity's logger is the one the
    cascading rule of section 4.1 prescribes; with the mask WARN alone,
    trace and info are discarded, warn goes to stdout and error to
    stderr. *)
Theorem turnOnLogging_console_cascade :
  (forall (L : Z) (s : Severity),
      sink_of (turnOnLogging L None) s = Some (cascade L s))
  /\ sink_of (turnOnLogging LEVEL_WARN None) SevTrace = Some Discard
  /\ sink_of (turnOnLogging LEVEL_WARN None) SevInfo = Some Discard
  /\ sink_of (turnOnLogging LEVEL_WARN None) SevWarning = Some Stdout
  /\ sink_of (turnOnLogging LEVEL_WARN None) SevError = Some Stderr.
Proof.
  split; [exact console_sink_cascade | repeat split].
Qed.

(** With a file, a sink is the fan-out of the file and the console sink
    when the console sink is a stream, and stays the discard writer
    otherwise. *)
Lemma turnOnLogging_file_sink (L : Z) (fd : nat) (s : Severity) :
  sink_of (turnOnLogging L (Some (OsFile fd))) s =
  option_map (fun c => if active c then MultiWriter [OsFile fd; c] else Discard)
             (sink_of (turnOnLogging L None) s).
Proof.
  unfold sink_of, logger_of, turnOnLogging.
  split_mask L; destruct s; reflexivity.
Qed.

(** C2. For every level mask and every file, a severity's sink writes to
    the file exactly when the severity's console sink is active under the
    mask; a severity that is discarded on the console stays discarded
    (there is no file-only logging), and an active one writes to both the
    file and its console stream. *)
Theorem file_fan_out_mirrors_console :
  forall (L : Z) (fd : nat) (s : Severity),
    file_included L fd s = console_active L s
    /\ sink_of (turnOnLogging L (Some (OsFile fd))) s =
       Some (if console_active L s
             then MultiWriter [OsFile fd; cascade L s]
             else Discard).
Proof.
  intros L fd s. unfold file_included, console_active.
  rewrite turnOnLogging_file_sink.
  rewrite console_sink_cascade. cbn [option_map].
  destruct (cascade L s) eqn:E; cbn; rewrite ?Nat.eqb_refl; auto.
Qed.

(** ** The monad and the logging calls *)

Lemma with_Serialize_unlock (l : traceLog.t) :
  traceLog.Serialize l = false ->
  with_Serialize false (with_Serialize true l) = l.
Proof. destruct l; cbn; intros ->; reflexivity. Qed.

Lemma ready_unlocked (l : traceLog.t) :
  ready l = true -> traceLog.Serialize l = false.
Proof.
  unfold ready. destruct (traceLog.Serialize l); [discriminate | reflexivity].
Qed.

Lemma ready_logger_of (l : traceLog.t) (s : Severity) :
  ready l = true -> exists lg, logger_of l s = Some lg.
Proof.
  unfold ready, logger_of. intros H. apply andb_prop in H as [_ H].
  destruct (traceLog.Trace l), (traceLog.Info l), (traceLog.Warning l),
    (traceLog.Error l); try discriminate; destruct s; eauto.
Qed.

Lemma add_events_app (w : World) (a b : list Event) :
  add_events (add_events w a) b = add_events w (a ++ b).
Proof. unfold add_events; cbn. rewrite app_assoc. reflexivity. Qed.

Lemma log_line_ready (s : Severity) (d : Z) (line : string) (w : World) (lg : Logger) :
  traceLog.Serialize (logger w) = false ->
  logger_of (logger w) s = Some lg ->
  log_line s d line w = (Returned tt, add_events w (line_events lg d line)).
Proof.
  intros Hs Hl. unfold log_line, Lock, composed, Output, Unlock, bind,
    get_logger, set_logger, emit, ret, add_events, line_events.
  rewrite Hs. cbn.
  replace (logger_of (with_Serialize true (logger w)) s) with (Some lg)
    by (rewrite <- Hl; destruct s; reflexivity).
  cbn. rewrite (with_Serialize_unlock _ Hs).
  rewrite <- !app_assoc. reflexivity.
Qed.

Lemma run_call_plain (env : Env) (fuel : nat) (c : LogCall) :
  is_alert (call_kind c) = false ->
  run_call env fuel c =
  log_line (severity_of (call_kind c)) (depth_of c) (expected_line env c).
Proof.
  destruct c as [k d sub e t f fmt a]. unfold depth_of. cbn.
  destruct k, d; intros H; try discriminate H; reflexivity.
Qed.

Lemma run_call_alert (env : Env) (fuel : nat) (c : LogCall) :
  is_alert (call_kind c) = true ->
  run_call env fuel c =
  (message <- composed (expected_line env c) ;;
   Lock ;;
   Output SevError (depth_of c) message ;;
   Unlock ;;
   SendEmailException env fuel (call_subject c) message [] ;;
   ret tt).
Proof.
  destruct c as [k d sub e t f fmt a]. unfold depth_of. cbn.
  destruct k, d; intros H; try discriminate H; reflexivity.
Qed.

(** ** The alert forwarder *)

Lemma SendEmailException_unconfigured (env : Env) (fuel : nat)
  (subject message : string) (a : list Value) (w : World) :
  traceLog.EmailConfiguration (logger w) = None ->
  SendEmailException env (S fuel) subject message a w = (Returned None, w).
Proof.
  intros H. cbn [SendEmailException].
  unfold SendEmailException_body, bind, get_logger. rewrite H. reflexivity.
Qed.

(** C6. For every subject and message, when no email configuration is
    set, [SendEmailException] returns a [nil] error at once: the world is
    left as it was, so no template is rendered and no mail is sent. *)
Theorem SendEmailException_without_configuration :
  forall (env : Env) (fuel : nat) (subject message : string) (a : list Value)
         (w : World),
    traceLog.EmailConfiguration (logger w) = None ->
    SendEmailException env (S fuel) subject message a w = (Returned None, w)
    /\ mail_attempts
         (events_of (SendEmailException env (S fuel) subject message a) w) = [].
Proof.
  intros env fuel subject message a w H.
  unfold events_of. rewrite (SendEmailException_unconfigured env fuel _ _ _ w H).
  split; [reflexivity |]. cbn [snd]. rewrite skipn_all. reflexivity.
Qed.

Lemma SendEmailException_without_configuration_witness :
  traceLog.EmailConfiguration (logger (fresh (turnOnLogging LEVEL_TRACE None))) = None
  /\ SendEmailException (sim [] None) 1 "subject" "disk full" []
       (fresh (turnOnLogging LEVEL_TRACE None))
     = (Returned None, fresh (turnOnLogging LEVEL_TRACE None)).
Proof.
  split; [reflexivity |].
  apply (SendEmailException_without_configuration (sim [] None) 0 "subject"
           "disk full" [] (fresh (turnOnLogging LEVEL_TRACE None))).
  reflexivity.
Defined.

(** ** The retention sweep *)

Lemma Trace_eq env t f fmt a :
  Trace env t f fmt a
  = log_line SevTrace 2 (render t f "Info" (Some (fmt_Sprintf env fmt a)) None).
Proof. reflexivity. Qed.

Lemma Errorf_eq env e t f fmt a :
  Errorf env e t f fmt a
  = log_line SevError 2 (render t f "ERROR" (Some (fmt_Sprintf env fmt a))
                           (Some (GoFmt.show "s" (VError e)))).
Proof. reflexivity. Qed.

Lemma log_line_run s d line w :
  ready (logger w) = true ->
  log_line s d line w
  = (Returned tt, add_events w (line_events (the_logger (logger w) s) d line)).
Proof.
  intros H. destruct (ready_logger_of _ s H) as [lg Hlg].
  unfold the_logger. rewrite Hlg.
  apply log_line_ready; auto using ready_unlocked.
Qed.

Lemma bind_log_line {B} s d line (k : unit -> M B) w :
  ready (logger w) = true ->
  bind (log_line s d line) k w
  = k tt (add_events w (line_events (the_logger (logger w) s) d line)).
Proof. intros H. unfold bind. rewrite (log_line_run _ _ _ _ H). reflexivity. Qed.

Lemma cleanup_entry_classify env base cmp e w :
  cleanup_entry env base cmp e w =
  (if negb (IsDir e) then ret tt
   else match classify (Name e) with
        | BadNumber err =>
            Errorf env err "main" "LogDirectoryCleanup"
                   "Attempting To Convert Directory [%s]" [VString (Name e)]
        | TooShort => panic indexOutOfRange
        | Dated y m d => remove_if_due env base cmp (Name e) y m d
        end) w.
Proof.
  unfold cleanup_entry, classify, index.
  destruct (IsDir e); cbn [negb]; [| reflexivity].
  destruct (nth_error (GoStrings.Split (Name e) "-") 0) as [p0|]; [| reflexivity].
  unfold bind at 1, ret at 1.
  destruct (GoStrings.Atoi p0) as [year [err|]]; [reflexivity |].
  destruct (nth_error (GoStrings.Split (Name e) "-") 1) as [p1|]; [| reflexivity].
  unfold bind at 1, ret at 1.
  destruct (GoStrings.Atoi p1) as [month [err|]]; [reflexivity |].
  destruct (nth_error (GoStrings.Split (Name e) "-") 2) as [p2|]; [| reflexivity].
  unfold bind at 1, ret at 1.
  destruct (GoStrings.Atoi p2) as [day [err|]]; reflexivity.
Qed.

Lemma remove_if_due_run env base cmp name y m d w :
  ready (logger w) = true ->
  exists evs,
    remove_if_due env base cmp name y m d w
    = (Returned tt,
       {| logger := logger w; events := events w ++ evs;
          tick := (if 0 <=? daysOld_of cmp y m d then S (tick w) else tick w) |})
    /\ removed evs = (if 0 <=? daysOld_of cmp y m d
                      then [fullFileName_of base name] else [])
    /\ mail_attempts evs = [] /\ closed evs = [].
Proof.
  intros R. unfold remove_if_due. rewrite Trace_eq.
  rewrite bind_log_line by exact R.
  fold (fullFileName_of base name). fold (daysOld_of cmp y m d).
  destruct (0 <=? daysOld_of cmp y m d).
  - rewrite Trace_eq. rewrite bind_log_line by exact R.
    unfold bind at 1, emit at 1. cbn [logger events tick add_events].
    unfold bind at 1, ask at 1. cbn [logger events tick].
    destruct (os_RemoveAll env (tick w) (fullFileName_of base name));
      rewrite Trace_eq, log_line_run by exact R;
      unfold add_events; cbn [logger events tick];
      rewrite <- !app_assoc; eexists; (split; [reflexivity |]); cbn; auto.
  - unfold ret, add_events. eexists; split; [reflexivity |]. cbn; auto.
Qed.

Lemma cleanup_entry_run env base cmp e w :
  ready (logger w) = true ->
  exists evs n,
    cleanup_entry env base cmp e w
    = ((if stops_sweep e then Panicked indexOutOfRange else Returned tt),
       {| logger := logger w; events := events w ++ evs; tick := tick w + n |})
    /\ removed evs = (if due cmp e then [fullFileName_of base (Name e)] else [])
    /\ mail_attempts evs = [] /\ closed evs = []
    /\ (stops_sweep e = true -> evs = [] /\ n = 0%nat).
Proof.
  intros R. rewrite cleanup_entry_classify. unfold stops_sweep, due.
  destruct (IsDir e); cbn [negb andb].
  2:{ exists [], 0%nat. rewrite app_nil_r, Nat.add_0_r. destruct w.
      repeat split; auto; discriminate. }
  destruct (classify (Name e)) as [err | | y m d].
  - rewrite Errorf_eq, log_line_run by exact R.
    eexists _, 0%nat. rewrite Nat.add_0_r. split; [reflexivity |].
    cbn. repeat split; auto; discriminate.
  - exists [], 0%nat. rewrite app_nil_r, Nat.add_0_r. destruct w.
    repeat split; auto.
  - destruct (remove_if_due_run env base cmp (Name e) y m d w R)
      as (evs & -> & Hr & Hm & Hc).
    exists evs, (if 0 <=? daysOld_of cmp y m d then 1%nat else 0%nat).
    split; [| repeat split; auto; discriminate].
    destruct (0 <=? daysOld_of cmp y m d);
      rewrite ?Nat.add_1_r, ?Nat.add_0_r; reflexivity.
Qed.

(** A directory whose name has a part that is no number gets one error
    line, and its turn of the loop ends there: the sweep goes on. *)
Lemma bad_number_is_reported env base cmp e err w :
  ready (logger w) = true ->
  IsDir e = true -> classify (Name e) = BadNumber err ->
  cleanup_entry env base cmp e w
  = (Returned tt,
     add_events w
       (line_events (the_logger (logger w) SevError) 2
          (convert_error_line env (Name e) err))).
Proof.
  intros R Hd Hc. rewrite cleanup_entry_classify, Hd, Hc. cbn [negb].
  rewrite Errorf_eq. apply log_line_run, R.
Qed.

(** A directory whose name is made of numbers but has fewer than three
    parts makes its turn of the loop panic, before anything is written. *)
Lemma short_name_panics env base cmp e w :
  IsDir e = true -> classify (Name e) = TooShort ->
  cleanup_entry env base cmp e w = (Panicked indexOutOfRange, w).
Proof.
  intros Hd Hc. rewrite cleanup_entry_classify, Hd, Hc. reflexivity.
Qed.

Lemma removed_app a b : removed (a ++ b) = (removed a ++ removed b)%list.
Proof. induction a as [| [] a IH]; cbn; rewrite ?IH; reflexivity. Qed.

Lemma mail_attempts_app a b :
  mail_attempts (a ++ b) = (mail_attempts a ++ mail_attempts b)%list.
Proof. induction a as [| [] a IH]; cbn; rewrite ?IH; reflexivity. Qed.

Lemma closed_app a b : closed (a ++ b) = (closed a ++ closed b)%list.
Proof. induction a as [| [] a IH]; cbn; rewrite ?IH; reflexivity. Qed.

Lemma range_cleanup_run env base cmp listing : forall w,
  ready (logger w) = true ->
  exists evs n,
    range listing (cleanup_entry env base cmp) w
    = ((if existsb stops_sweep listing then Panicked indexOutOfRange
        else Returned tt),
       {| logger := logger w; events := events w ++ evs; tick := tick w + n |})
    /\ removed evs = due_paths base cmp listing
    /\ mail_attempts evs = [] /\ closed evs = [].
Proof.
  induction listing as [| e rest IH]; intros w R.
  - exists [], 0%nat. cbn. rewrite app_nil_r, Nat.add_0_r. destruct w. auto.
  - cbn [range existsb]. unfold bind.
    destruct (cleanup_entry_run env base cmp e w R)
      as (evs & n & -> & Hr & Hm & Hc & Hs).
    unfold due_paths. cbn [reached].
    destruct (stops_sweep e) eqn:S.
    + destruct (Hs eq_refl) as [-> ->]. exists [], 0%nat. cbn. auto.
    + cbn [orb].
      destruct (IH {| logger := logger w; events := events w ++ evs;
                      tick := tick w + n |} R)
        as (evs' & n' & -> & Hr' & Hm' & Hc').
      cbn [logger events tick].
      exists (evs ++ evs')%list, (n + n')%nat.
      rewrite <- app_assoc, Nat.add_assoc. split; [reflexivity |].
      rewrite removed_app, mail_attempts_app, closed_app, Hr, Hr', Hm, Hm', Hc, Hc'.
      repeat split; auto. unfold due_paths. cbn [filter].
      destruct (due cmp e); reflexivity.
Qed.

Lemma Startedf_eq env t f fmt a :
  Startedf env t f fmt a
  = log_line SevTrace 2 (render t f "Started" (Some (fmt_Sprintf env fmt a)) None).
Proof. reflexivity. Qed.

Lemma Started_eq t f :
  Started t f = log_line SevTrace 2 (render t f "Started" None None).
Proof. reflexivity. Qed.

Lemma Completed_eq t f :
  Completed t f = log_line SevTrace 2 (render t f "Completed" None None).
Proof. reflexivity. Qed.

Lemma CompletedError_eq e t f :
  CompletedError e t f
  = log_line SevError 2 (render t f "Completed : ERROR" None
                           (Some (GoFmt.show "s" (VError e)))).
Proof. reflexivity. Qed.

Lemma CatchPanic_quiet env fuel slot fn w :
  CatchPanic env fuel slot fn None w = (Returned slot, w).
Proof. reflexivity. Qed.

Lemma CatchPanic_unconfigured env fuel slot fn r w :
  traceLog.EmailConfiguration (logger w) = None ->
  CatchPanic env (S fuel) slot fn (Some r) w
  = (Returned (match slot with
               | Some _ => Some (Some (GoFmt.Sprintf "%v" [VString r]))
               | None => None
               end),
     {| logger := logger w; events := events w; tick := S (tick w) |}).
Proof.
  intros H. unfold CatchPanic, CatchPanic_with.
  unfold bind at 1, ask at 1. unfold bind at 1.
  rewrite SendEmailException_unconfigured by exact H.
  destruct slot; reflexivity.
Qed.

Lemma LogDirectoryCleanup_run env fuel base keep w listing :
  ready (logger w) = true ->
  ioutil_ReadDir env (tick w) base = inl listing ->
  existsb stops_sweep listing = false
  \/ traceLog.EmailConfiguration (logger w) = None ->
  exists evs n,
    LogDirectoryCleanup env (S fuel) base keep w
    = (Returned tt,
       {| logger := logger w; events := events w ++ evs; tick := tick w + n |})
    /\ removed evs
       = due_paths base (compareDate_of (time_Now env (S (tick w))) keep) listing
    /\ mail_attempts evs = [] /\ closed evs = [].
Proof.
  intros R HL Hcase. unfold LogDirectoryCleanup, LogDirectoryCleanup_body, deferred.
  rewrite Startedf_eq, bind_log_line by exact R.
  unfold bind at 1, emit at 1. unfold bind at 1, ask at 1.
  cbn [logger events tick add_events]. rewrite HL.
  unfold bind at 1, ask at 1. cbn [logger events tick].
  rewrite Trace_eq, bind_log_line by exact R.
  fold (compareDate_of (time_Now env (S (tick w))) keep).
  unfold bind at 1.
  match goal with |- context [range listing ?b ?w0] =>
    destruct (range_cleanup_run env base
                (compareDate_of (time_Now env (S (tick w))) keep) listing w0 R)
      as (evs & n & -> & Hr & Hm & Hc)
  end.
  cbn [logger events tick add_events].
  destruct (existsb stops_sweep listing) eqn:E.
  - destruct Hcase as [Hcase | Hcase]; [discriminate |].
    unfold bind at 1. rewrite CatchPanic_unconfigured by exact Hcase.
    cbn [logger events tick]. unfold ret.
    eexists _, (S (S (S n))). rewrite <- !app_assoc.
    replace (tick w + S (S (S n)))%nat with (S (S (S (tick w)) + n)) by lia.
    split; [reflexivity |].
    rewrite !removed_app, !mail_attempts_app, !closed_app, Hr, Hm, Hc.
    cbn. rewrite ?app_nil_r. auto.
  - rewrite Completed_eq, log_line_run by exact R.
    unfold bind at 1. rewrite CatchPanic_quiet. unfold ret, add_events.
    cbn [logger events tick].
    eexists _, (S (S n)). rewrite <- !app_assoc.
    replace (tick w + S (S n))%nat with (S (S (tick w)) + n)%nat by lia.
    split; [reflexivity |].
    rewrite !removed_app, !mail_attempts_app, !closed_app, Hr, Hm, Hc.
    cbn. rewrite ?app_nil_r. auto.
Qed.


Lemma LogDirectoryCleanup_unreadable env fuel base keep w err :
  ready (logger w) = true ->
  ioutil_ReadDir env (tick w) base = inr err ->
  exists evs,
    LogDirectoryCleanup env fuel base keep w
    = (Returned tt,
       {| logger := logger w; events := events w ++ evs; tick := S (tick w) |})
    /\ removed evs = [] /\ mail_attempts evs = [] /\ closed evs = [].
Proof.
  intros R HL. unfold LogDirectoryCleanup, LogDirectoryCleanup_body, deferred.
  rewrite Startedf_eq, bind_log_line by exact R.
  unfold bind at 1, emit at 1. unfold bind at 1, ask at 1.
  cbn [logger events tick add_events]. rewrite HL.
  rewrite CompletedError_eq, log_line_run by exact R.
  unfold bind at 1. rewrite CatchPanic_quiet. unfold ret, add_events.
  cbn [logger events tick]. rewrite <- !app_assoc.
  eexists. split; [reflexivity |]. cbn. auto.
Qed.

Lemma LogDirectoryCleanup_steady env fuel base keep w :
  ready (logger w) = true ->
  traceLog.EmailConfiguration (logger w) = None ->
  exists evs n,
    LogDirectoryCleanup env (S fuel) base keep w
    = (Returned tt,
       {| logger := logger w; events := events w ++ evs; tick := tick w + n |})
    /\ mail_attempts evs = [] /\ closed evs = [].
Proof.
  intros R H. destruct (ioutil_ReadDir env (tick w) base) as [listing | err] eqn:E.
  - destruct (LogDirectoryCleanup_run env fuel base keep w listing R E (or_intror H))
      as (evs & n & -> & _ & Hm & Hc). eauto.
  - destruct (LogDirectoryCleanup_unreadable env (S fuel) base keep w err R E)
      as (evs & -> & _ & Hm & Hc).
    exists evs, 1%nat. rewrite Nat.add_1_r. auto.
Qed.

Lemma turnOnLogging_ready L fh : ready (turnOnLogging L fh) = true.
Proof. unfold turnOnLogging; split_mask L; destruct fh; reflexivity. Qed.

Lemma turnOnLogging_no_email L fh :
  traceLog.EmailConfiguration (turnOnLogging L fh) = None.
Proof. unfold turnOnLogging; split_mask L; destruct fh; reflexivity. Qed.

Lemma turnOnLogging_no_LogFile L fh : traceLog.LogFile (turnOnLogging L fh) = None.
Proof. unfold turnOnLogging; split_mask L; destruct fh; reflexivity. Qed.

(** How [StartFile] ends: the process exits when the directory or the
    file cannot be created; otherwise the call returns and the logger is
    the one [turnOnLogging] built on the new file. *)
Lemma StartFile_run env fuel L base keep w :
  exists w',
    (StartFile env (S fuel) L base keep w = (Exited 1, w')
     /\ logger w' = logger w)
    \/ (exists logf,
          StartFile env (S fuel) L base keep w = (Returned tt, w')
          /\ logger w' = turnOnLogging L (Some (OsFile logf))
          /\ mail_attempts (skipn (List.length (events w)) (events w')) = []
          /\ closed (skipn (List.length (events w)) (events w')) = []).
Proof.
  destruct (StartFile env (S fuel) L base keep w) as [o w'] eqn:E.
  exists w'. revert E. unfold StartFile.
  unfold bind at 1, ask at 1. unfold bind at 1, ask at 1.
  unfold bind at 1, emit at 1. unfold bind at 1, ask at 1.
  cbn [logger events tick].
  match goal with |- context [os_MkdirAll env ?t ?p] =>
    destruct (os_MkdirAll env t p) as [e |] end.
  - unfold log_Fatalf, bind, emit, exit. cbn [logger events tick].
    intros E; inversion E; subst. left. split; reflexivity.
  - unfold bind at 1, emit at 1. unfold bind at 1, ask at 1.
    cbn [logger events tick].
    match goal with |- context [os_Create env ?t ?p] =>
      destruct (os_Create env t p) as [logf | e] end.
    + unfold bind at 1, set_logger at 1. cbn [logger events tick].
      match goal with |- context [LogDirectoryCleanup _ _ _ _ ?w0] =>
        destruct (LogDirectoryCleanup_steady env fuel (GoStrings.TrimRight base "/")
                    keep w0 (turnOnLogging_ready _ _) (turnOnLogging_no_email _ _))
          as (evs & n & -> & Hm & Hc)
      end.
      cbn [logger events tick].
      intros E; inversion E; subst. right. exists logf. split; [reflexivity |].
      cbn [logger events]. split; [reflexivity |].
      rewrite <- !app_assoc, skipn_app, skipn_all, Nat.sub_diag. cbn [skipn app].
      cbn [mail_attempts closed]. auto.
    + unfold log_Fatalf, bind, emit, exit. cbn [logger events tick].
      intros E; inversion E; subst. left. split; reflexivity.
Qed.

(** ** Start, StartFile and Stop *)

Lemma Stop_without_LogFile env w :
  ready (logger w) = true ->
  traceLog.LogFile (logger w) = None ->
  Stop env w
  = (Returned None,
     add_events w
       (line_events (the_logger (logger w) SevTrace) 2
          (render "main" "Stop" "Started" None None)
        ++ line_events (the_logger (logger w) SevTrace) 2
             (render "main" "Stop" "Completed" None None))).
Proof.
  intros R H. unfold Stop.
  rewrite Started_eq, bind_log_line by exact R.
  unfold bind at 1, get_logger at 1. cbn [logger add_events]. rewrite H.
  unfold bind at 1, ret at 1.
  rewrite Completed_eq, bind_log_line by exact R.
  unfold ret. rewrite add_events_app. reflexivity.
Qed.

Lemma events_of_extends {A} (m : M A) w o l evs t :
  m w = (o, {| logger := l; events := events w ++ evs; tick := t |}) ->
  events_of m w = evs.
Proof.
  intros H. unfold events_of. rewrite H. cbn.
  rewrite skipn_app, skipn_all, Nat.sub_diag. reflexivity.
Qed.

Lemma events_of_add_events {A} (m : M A) w o evs :
  m w = (o, add_events w evs) -> events_of m w = evs.
Proof.
  intros H. unfold events_of. rewrite H. cbn.
  rewrite skipn_app, skipn_all, Nat.sub_diag. reflexivity.
Qed.

(** C5 (what the code does). After [StartFile] has opened the log file and
    returned, the field [LogFile] is still [nil], so [Stop] closes no file
    and returns [nil], whatever closing the file would have reported. *)
Theorem Stop_after_StartFile_closes_nothing :
  forall (env : Env) (fuel : nat) (L : Z) (base : string) (keep : Z)
         (w w1 : World),
    StartFile env (S fuel) L base keep w = (Returned tt, w1) ->
    traceLog.LogFile (logger w1) = None
    /\ fst (Stop env w1) = Returned None
    /\ closed (events_of (Stop env) w1) = [].
Proof.
  intros env fuel L base keep w w1 H.
  destruct (StartFile_run env fuel L base keep w) as (w' & [[E _] | (logf & E & Hl & _)]);
    rewrite H in E; inversion E; subst w'.
  assert (R : ready (logger w1) = true) by (rewrite Hl; apply turnOnLogging_ready).
  assert (N : traceLog.LogFile (logger w1) = None)
    by (rewrite Hl; apply turnOnLogging_no_LogFile).
  split; [exact N |].
  pose proof (Stop_without_LogFile env w1 R N) as S.
  rewrite (events_of_add_events _ _ _ _ S), S. split; [reflexivity |].
  rewrite closed_app. reflexivity.
Qed.

Lemma Stop_after_StartFile_closes_nothing_witness :
  StartFile (sim [] (Some "close /logs: input/output error")) 1 LEVEL_TRACE "/logs" 5
    (fresh zero_traceLog)
  = (Returned tt,
     snd (StartFile (sim [] (Some "close /logs: input/output error")) 1 LEVEL_TRACE
            "/logs" 5 (fresh zero_traceLog)))
  /\ fst (Stop (sim [] (Some "close /logs: input/output error"))
            (snd (StartFile (sim [] (Some "close /logs: input/output error")) 1
                    LEVEL_TRACE "/logs" 5 (fresh zero_traceLog))))
     = Returned None.
Proof.
  split; [vm_compute; reflexivity |].
  apply (Stop_after_StartFile_closes_nothing
           (sim [] (Some "close /logs: input/output error")) 0 LEVEL_TRACE
           "/logs" 5 (fresh zero_traceLog)).
  vm_compute; reflexivity.
Defined.

(** After a console-only [Start], [Stop] returns [nil] and closes
    nothing. *)
Lemma console_only_Stop_closes_nothing (env : Env) (L : Z) (w : World) :
  fst (Stop env (snd (Start L w))) = Returned None
  /\ closed (events_of (Stop env) (snd (Start L w))) = [].
Proof.
  assert (R : ready (logger (snd (Start L w))) = true)
    by apply turnOnLogging_ready.
  assert (N : traceLog.LogFile (logger (snd (Start L w))) = None)
    by apply turnOnLogging_no_LogFile.
  pose proof (Stop_without_LogFile env _ R N) as S.
  rewrite (events_of_add_events _ _ _ _ S), S. split; [reflexivity |].
  rewrite closed_app. reflexivity.
Qed.

(** C10. [turnOnLogging] builds the whole logger anew, with no email
    configuration. So after [ConfigureEmail], a [Start] leaves the logger
    that [turnOnLogging] built and no configuration, and a [StartFile]
    either ends the process (the directory or the file could not be
    created) or returns with no configuration; from then on
    [SendEmailException] returns [nil] and sends nothing, until
    [ConfigureEmail] installs a configuration again. *)
Theorem restart_drops_the_email_configuration :
  (forall (L : Z) (fh : option Writer),
      traceLog.EmailConfiguration (turnOnLogging L fh) = None)
  /\ (forall (env : Env) (fuel : nat) (host : string) (port : Z)
             (userName password : string) (to : list string) (L : Z)
             (subject message : string) (a : list Value) (w : World),
        exists cfg,
          traceLog.EmailConfiguration
            (logger (snd (ConfigureEmail host port userName password to w)))
          = Some cfg
          /\ logger (snd (Start L (snd (ConfigureEmail host port userName password to w))))
             = turnOnLogging L None
          /\ SendEmailException env (S fuel) subject message a
               (snd (Start L (snd (ConfigureEmail host port userName password to w))))
             = (Returned None,
                snd (Start L (snd (ConfigureEmail host port userName password to w))))
          /\ traceLog.EmailConfiguration
               (logger (snd (ConfigureEmail host port userName password to
                               (snd (Start L (snd (ConfigureEmail host port userName
                                                     password to w)))))))
             = Some cfg)
  /\ (forall (env : Env) (fuel : nat) (host : string) (port : Z)
             (userName password : string) (to : list string) (L : Z)
             (base : string) (keep : Z)
             (subject message : string) (a : list Value) (w : World),
        match StartFile env (S fuel) L base keep
                (snd (ConfigureEmail host port userName password to w)) with
        | (Returned _, w2) =>
            traceLog.EmailConfiguration (logger w2) = None
            /\ mail_attempts
                 (skipn (List.length (events w)) (events w2)) = []
            /\ SendEmailException env (S fuel) subject message a w2
               = (Returned None, w2)
        | (Exited code, _) => code = 1
        | _ => False
        end).
Proof.
  split; [exact turnOnLogging_no_email |]. split.
  - intros. eexists. split; [reflexivity |]. split; [reflexivity |].
    split; [| reflexivity].
    apply SendEmailException_unconfigured. apply turnOnLogging_no_email.
  - intros.
    destruct (StartFile_run env fuel L base keep
                (snd (ConfigureEmail host port userName password to w)))
      as (w' & [[E _] | (logf & E & Hl & Hm & _)]); rewrite E; [reflexivity |].
    assert (N : traceLog.EmailConfiguration (logger w') = None)
      by (rewrite Hl; apply turnOnLogging_no_email).
    split; [exact N |]. split; [exact Hm |].
    apply SendEmailException_unconfigured, N.
Qed.


Lemma daysOld_exact (t u : Z) :
  -100000 <= t - u <= 100000 -> GoTime.wholeDays (GoTime.Sub t u) = t - u.
Proof.
  intros H. unfold GoTime.wholeDays, GoTime.Sub.
  assert (N : GoTime.nsPerDay = 86400000000000) by reflexivity.
  assert (A : GoTime.minDuration = -9223372036854775808) by reflexivity.
  assert (B : GoTime.maxDuration = 9223372036854775807) by reflexivity.
  replace ((GoTime.minDuration <=? (t - u) * GoTime.nsPerDay)
           && ((t - u) * GoTime.nsPerDay <=? GoTime.maxDuration)) with true.
  - apply Z.quot_mul. rewrite N; discriminate.
  - symmetry. apply andb_true_intro. rewrite N, A, B. split; apply Z.leb_le; lia.
Qed.

Lemma Date_day (y m d k : Z) : GoTime.Date y m (d - k) = GoTime.Date y m d - k.
Proof. unfold GoTime.Date. lia. Qed.

(** The retention boundary: a directory whose date is [daysToKeep] days
    before today has [daysOld] 0 and is due; one dated a day later has
    [daysOld] -1 and is not. *)
Lemma retention_boundary (now : GoTime.Clock) (keep y m d : Z) :
  (GoTime.Date y m d
   = GoTime.Date (GoTime.Year now) (GoTime.Month now) (GoTime.Day now) - keep ->
   daysOld_of (compareDate_of now keep) y m d = 0)
  /\ (GoTime.Date y m d
      = GoTime.Date (GoTime.Year now) (GoTime.Month now) (GoTime.Day now) - (keep - 1) ->
      daysOld_of (compareDate_of now keep) y m d = -1).
Proof.
  unfold daysOld_of, compareDate_of. rewrite Date_day.
  split; intros ->; rewrite daysOld_exact; lia.
Qed.



(** C3 (what the code does). Today is 10 June 2024 and five days are kept.
    The directory [2024-06-05] is exactly five days old ([daysOld] is 0) and
    is removed when it is swept with [2024-06-06], which is kept. Swept
    after a sibling named [2024], it is left in place: the turn of [2024]
    panics on [parts[1]], the panic is recovered and the sweep is over. *)
Theorem sweep_after_short_sibling_keeps_due_directory :
  classify "2024-06-05" = Dated 2024 6 5
  /\ daysOld_of (compareDate_of clock_2024_06_10 5) 2024 6 5 = 0
  /\ daysOld_of (compareDate_of clock_2024_06_10 5) 2024 6 6 = -1
  /\ removed (events (snd (sweep [dir "2024-06-05"; dir "2024-06-06"])))
     = ["/logs/2024-06-05"]
  /\ fst (sweep [dir "2024"; dir "2024-06-05"]) = Returned tt
  /\ removed (events (snd (sweep [dir "2024"; dir "2024-06-05"]))) = [].
Proof. repeat split; vm_compute; reflexivity. Qed.

(** C4 (what the code does). A name that is no number is reported and the
    sweep goes on: after [notadate], the directory [2024-06-05] is removed.
    A name that is a number but has fewer than three parts ([2024],
    [2024-06]) is not reported: the sweep panics on the missing part and
    ends there, with no error line, no line for the sibling and no
    [Completed] line. *)
Theorem short_numeric_name_ends_the_sweep :
  classify "2024" = TooShort
  /\ classify "2024-06" = TooShort
  /\ output_lines (events (snd (sweep [dir "2024"; dir "2024-06-05"])))
     = ["main : LogDirectoryCleanup : Started : BaseFilePath[/logs] DaysToKeep[5]"
          ++ GoStrings.LF;
        "main : LogDirectoryCleanup : Info : CompareDate[2024-06-05 00:00:00 +0000 UTC]"
          ++ GoStrings.LF]
  /\ removed (events (snd (sweep [dir "2024"; dir "2024-06-05"]))) = []
  /\ output_lines (events (snd (sweep [dir "2024-06"; dir "2024-06-05"])))
     = output_lines (events (snd (sweep [dir "2024"; dir "2024-06-05"])))
  /\ In (convert_error_line (sim [] None) "notadate"
           (snd (GoStrings.Atoi "notadate")))
        (output_lines (events (snd (sweep [dir "notadate"; dir "2024-06-05"]))))
  /\ removed (events (snd (sweep [dir "notadate"; dir "2024-06-05"])))
     = ["/logs/2024-06-05"].
Proof.
  vm_compute. repeat split. right. right. left. reflexivity.
Qed.

(** ** The line format and the alert calls *)

Lemma SendEmailException_mail_only env : forall fuel subject message a w,
  exists o evs n,
    SendEmailException env fuel subject message a w
    = (o, {| logger := logger w; events := events w ++ evs; tick := tick w + n |})
    /\ forallb is_mail evs = true
    /\ ((exists e, o = Returned e) \/ o = OutOfFuel).
Proof.
  induction fuel as [| fuel IH]; intros subject message a w.
  - exists OutOfFuel, [], 0%nat. cbn. rewrite app_nil_r, Nat.add_0_r.
    destruct w; auto.
  - cbn [SendEmailException]. unfold SendEmailException_body.
    unfold bind at 1, get_logger at 1.
    destruct (traceLog.EmailConfiguration (logger w)) as [cfg |].
    2:{ exists (Returned None), [], 0%nat. cbn. rewrite app_nil_r, Nat.add_0_r.
        destruct w; eauto. }
    unfold bind at 1, emit at 1. unfold ask_ext at 1.
    unfold bind at 1. unfold bind at 1, ask at 1. cbn [logger events tick].
    match goal with |- context [template_Execute env ?t ?tpl ?p] =>
      destruct (template_Execute env t tpl p) as [emailMessage | v] end.
    + unfold ret at 1. unfold bind at 1, emit at 1. unfold ask_ext at 1.
      unfold bind at 1. unfold bind at 1, ask at 1. cbn [logger events tick].
      match goal with |- context [smtp_SendMail env ?t ?ad ?au ?f ?to ?m] =>
        destruct (smtp_SendMail env t ad au f to m) as [e | v] end.
      * unfold ret at 1. unfold ret at 1. unfold CatchPanic_with, bind, ret.
        eexists (Returned e), _, 2%nat. rewrite <- !app_assoc.
        replace (tick w + 2)%nat with (S (S (tick w))) by lia.
        split; [reflexivity |]. split; [reflexivity | eauto].
      * unfold panic at 1. unfold CatchPanic_with.
        unfold bind at 1. unfold bind at 1, ask at 1. unfold bind at 1.
        cbn [logger events tick].
        match goal with |- context [SendEmailException env fuel ?s ?m ?a0 ?w0] =>
          destruct (IH s m a0 w0) as (o & evs & n & -> & Hm & Ho) end.
        cbn [logger events tick].
        destruct Ho as [[e ->] | ->].
        -- unfold ret. eexists (Returned None), _, (3 + n)%nat.
           rewrite <- !app_assoc.
           replace (tick w + (3 + n))%nat with (S (S (S (tick w))) + n)%nat by lia.
           split; [reflexivity |]. cbn. rewrite Hm. eauto.
        -- eexists OutOfFuel, _, (3 + n)%nat.
           rewrite <- !app_assoc.
           replace (tick w + (3 + n))%nat with (S (S (S (tick w))) + n)%nat by lia.
           split; [reflexivity |]. cbn. rewrite Hm. eauto.
    + unfold panic at 1. unfold CatchPanic_with.
      unfold bind at 1. unfold bind at 1, ask at 1. unfold bind at 1.
      cbn [logger events tick].
      match goal with |- context [SendEmailException env fuel ?s ?m ?a0 ?w0] =>
        destruct (IH s m a0 w0) as (o & evs & n & -> & Hm & Ho) end.
      cbn [logger events tick].
      destruct Ho as [[e ->] | ->].
      -- unfold ret. eexists (Returned None), _, (2 + n)%nat.
         rewrite <- !app_assoc.
         replace (tick w + (2 + n))%nat with (S (S (tick w)) + n)%nat by lia.
         split; [reflexivity |]. cbn. rewrite Hm. eauto.
      -- eexists OutOfFuel, _, (2 + n)%nat.
         rewrite <- !app_assoc.
         replace (tick w + (2 + n))%nat with (S (S (tick w)) + n)%nat by lia.
         split; [reflexivity |]. cbn. rewrite Hm. eauto.
Qed.

Lemma alert_run env fuel d subject line w :
  ready (logger w) = true ->
  exists o evs n,
    (message <- composed line ;;
     Lock ;;
     Output SevError d message ;;
     Unlock ;;
     SendEmailException env fuel subject message [] ;;
     ret tt) w
    = (o, {| logger := logger w;
             events := events w
                       ++ EvFormat line :: EvLock
                          :: EvOutput (the_logger (logger w) SevError) d line
                          :: EvUnlock :: evs;
             tick := tick w + n |})
    /\ forallb is_mail evs = true.
Proof.
  intros R. pose proof (ready_unlocked _ R) as U.
  destruct (ready_logger_of _ SevError R) as [lg Hlg].
  unfold the_logger. rewrite Hlg.
  unfold bind at 1, composed at 1. unfold bind at 1, emit at 1, ret at 1.
  unfold bind at 1, Lock at 1. unfold bind at 1, get_logger at 1.
  cbn [logger events tick]. rewrite U.
  unfold bind at 1, set_logger at 1, emit at 1. cbn [logger events tick].
  unfold bind at 1, Output at 1. unfold bind at 1, get_logger at 1.
  cbn [logger events tick].
  replace (logger_of (with_Serialize true (logger w)) SevError) with (Some lg)
    by (rewrite <- Hlg; reflexivity).
  unfold emit at 1. cbn [logger events tick].
  unfold bind at 1, Unlock at 1. unfold bind at 1, get_logger at 1.
  cbn [logger events tick traceLog.Serialize with_Serialize].
  unfold bind at 1, set_logger at 1, emit at 1. cbn [logger events tick].
  rewrite (with_Serialize_unlock _ U).
  unfold bind at 1.
  match goal with |- context [SendEmailException env fuel ?s ?m ?a0 ?w0] =>
    destruct (SendEmailException_mail_only env fuel s m a0 w0)
      as (o & evs & n & -> & Hm & Ho) end.
  cbn [logger events tick]. rewrite <- !app_assoc. cbn [app].
  destruct Ho as [[e ->] | ->]; unfold ret; eauto.
Qed.

Lemma mail_only_no_output evs : forallb is_mail evs = true -> output_lines evs = [].
Proof.
  induction evs as [| e evs IH]; [reflexivity |]. cbn [forallb].
  intros H. apply andb_prop in H as [He H]. destruct e; try discriminate He; cbn; auto.
Qed.

Lemma tag_of_in_Tags k : In (tag_of k) Tags.
Proof. destruct k; cbn; auto 10. Qed.

Lemma run_call_events env fuel c w :
  ready (logger w) = true ->
  exists mail,
    events_of (run_call env fuel c) w
    = (if is_alert (call_kind c)
       then EvFormat (expected_line env c) :: EvLock
            :: EvOutput (the_logger (logger w) SevError) (depth_of c)
                        (expected_line env c)
            :: EvUnlock :: mail
       else line_events (the_logger (logger w) (severity_of (call_kind c)))
                        (depth_of c) (expected_line env c))
    /\ forallb is_mail mail = true.
Proof.
  intros R. destruct (is_alert (call_kind c)) eqn:K.
  - rewrite (run_call_alert env fuel c K).
    destruct (alert_run env fuel (depth_of c) (call_subject c)
                (expected_line env c) w R) as (o & evs & n & H & Hm).
    exists evs. split; [| exact Hm]. exact (events_of_extends _ _ _ _ _ _ H).
  - rewrite (run_call_plain env fuel c K). exists []. split; [| reflexivity].
    apply (events_of_add_events _ _ (Returned tt)). apply log_line_run, R.
Qed.

(** C8 (as amended). For every logging call made on a logger that is
    ready, one line is handed to the severity's logger, and it reads
    [<title> : <function> : <Tag>[ : <message>][ : <error>]] followed by a
    newline, with the tag of the call taken from the list of the
    specification. The message is there for every call but [Started],
    [Completed], [Error], [CompletedError] and their [cd] twins; the error
    is there for the [Error] and [CompletedError] calls, plain and [f]. *)
Theorem logging_call_line_format :
  forall (env : Env) (fuel : nat) (c : LogCall) (w : World),
    ready (logger w) = true ->
    output_lines (events_of (run_call env fuel c) w)
    = [render (call_title c) (call_function c) (tag_of (call_kind c))
         (if has_message (call_kind c)
          then Some (fmt_Sprintf env (call_format c) (call_args c)) else None)
         (if has_error (call_kind c)
          then Some (GoFmt.show "s" (VError (call_err c))) else None)]
    /\ In (tag_of (call_kind c)) Tags.
Proof.
  intros env fuel c w R. split; [| apply tag_of_in_Tags].
  destruct (run_call_events env fuel c w R) as (mail & -> & Hm).
  destruct (is_alert (call_kind c)); cbn [output_lines line_events].
  - rewrite (mail_only_no_output _ Hm). reflexivity.
  - reflexivity.
Qed.

Lemma logging_call_line_format_witness :
  ready (logger (fresh (turnOnLogging LEVEL_TRACE None))) = true
  /\ output_lines
       (events_of
          (run_call (sim [] None) 1
             {| call_kind := KErrorf; call_depth := None; call_subject := "";
                call_err := Some "EOF"; call_title := "main";
                call_function := "load"; call_format := "reading %s";
                call_args := [VString "a.txt"] |})
          (fresh (turnOnLogging LEVEL_TRACE None)))
     = ["main : load : ERROR : reading a.txt : EOF" ++ GoStrings.LF].
Proof.
  split; [reflexivity |].
  apply (logging_call_line_format (sim [] None) 1
           {| call_kind := KErrorf; call_depth := None; call_subject := "";
              call_err := Some "EOF"; call_title := "main";
              call_function := "load"; call_format := "reading %s";
              call_args := [VString "a.txt"] |}
           (fresh (turnOnLogging LEVEL_TRACE None))).
  reflexivity.
Defined.

(** C8 (as stated) fails: [Started("main", "Example")] hands
    its logger the line [main : Example : Started], which has no message
    field, so it is not of the shape
    [<title> : <function> : <Tag> : <message>[ : <error>]] for any tag of
    the list. *)
Lemma Started_line_has_no_message :
  output_lines
    (events_of
       (run_call (sim [] None) 1
          {| call_kind := KStarted; call_depth := None; call_subject := "";
             call_err := None; call_title := "main"; call_function := "Example";
             call_format := ""; call_args := [] |})
       (fresh (turnOnLogging LEVEL_TRACE None)))
  = ["main : Example : Started" ++ GoStrings.LF]
  /\ ~ matches_template "main" "Example" ("main : Example : Started" ++ GoStrings.LF).
Proof.
  split; [reflexivity |].
  intros (tag & message & err & Hin & H).
  cbn in H. unfold Tags in Hin. cbn in Hin.
  repeat (destruct Hin as [<- | Hin]; [cbn in H; discriminate H |]).
  contradiction.
Qed.

(** ** The panic boundary *)

Lemma CatchPanic_unfold env fuel slot fn r w :
  CatchPanic env fuel slot fn (Some r) w
  = match secondary_alert env fuel fn r w with
    | (Returned _, w2) => (Returned (stored slot r), w2)
    | (Panicked v, w2) => (Panicked v, w2)
    | (Exited c, w2) => (Exited c, w2)
    | (Stuck, w2) => (Stuck, w2)
    | (OutOfFuel, w2) => (OutOfFuel, w2)
    end.
Proof.
  unfold CatchPanic, CatchPanic_with, secondary_alert, after_Stack.
  unfold bind at 1. unfold ask at 1. unfold bind at 1.
  change (SendEmailException env fuel systemAlertSubject
            "%s : PANIC Defered [%s] : Stack Trace : %s"
            [VString fn; VString r; VString (runtime_Stack env (tick w))])
    with (SendEmailException env fuel systemAlertSubject panic_alert_format
            (panic_alert_arguments fn r (runtime_Stack env (tick w)))).
  destruct (SendEmailException env fuel systemAlertSubject panic_alert_format
              (panic_alert_arguments fn r (runtime_Stack env (tick w)))
              {| logger := logger w; events := events w; tick := S (tick w) |})
    as [[e | v | c | |] w2]; try reflexivity.
  destruct slot; reflexivity.
Qed.

Lemma SendEmailException_never_panics env fuel subject message a w v :
  fst (SendEmailException env fuel subject message a w) <> Panicked v.
Proof.
  destruct (SendEmailException_mail_only env fuel subject message a w)
    as (o & evs & n & -> & _ & [[e ->] | ->]); discriminate.
Qed.

(** X19. The panic boundary when the secondary alert returns. A panic [r]
    raised under [defer CatchPanic] is recovered there. [CatchPanic] sends a
    secondary alert with the subject of system alerts, the name of the
    function, the panic value and the stack text; when that alert returns,
    [CatchPanic] leaves the panic value, as an error, in the slot it was
    given (and nothing where it was given none), and the guarded function
    returns to its caller: [SendEmailException] with a [nil] error, and any
    body run under the deferred call, as that of [LogDirectoryCleanup] is,
    with the zero value of its result. Whether or not the secondary alert
    returns, [SendEmailException] never ends in a panic. *)
Theorem recovered_panic_is_contained :
  forall (env : Env) (fuel : nat) (slot : option error) (functionName r : string)
         (w : World) (e : error) (w2 : World),
    secondary_alert env fuel functionName r w = (Returned e, w2) ->
    CatchPanic env fuel slot functionName (Some r) w = (Returned (stored slot r), w2)
    /\ (forall (subject message : string) (a : list Value) (w0 : World),
          functionName = "SendEmailException" ->
          SendEmailException_body env subject message a w0 = (Panicked r, w) ->
          SendEmailException env (S fuel) subject message a w0 = (Returned None, w2))
    /\ (forall (A : Type) (zero : A) (body : M A) (w0 : World),
          body w0 = (Panicked r, w) ->
          deferred (CatchPanic env fuel slot functionName) zero body w0
          = (Returned zero, w2))
    /\ (forall (base : string) (keep : Z) (w0 : World),
          functionName = "LogDirectoryCleanup" ->
          LogDirectoryCleanup_body env base keep w0 = (Panicked r, w) ->
          LogDirectoryCleanup env fuel base keep w0 = (Returned tt, w2))
    /\ (forall (fuel' : nat) (subject message : string) (a : list Value)
               (w0 : World) (v : string),
          fst (SendEmailException env fuel' subject message a w0) <> Panicked v).
Proof.
  intros env fuel slot functionName r w e w2 H.
  assert (C : forall s, CatchPanic env fuel s functionName (Some r) w
                        = (Returned (stored s r), w2))
    by (intros s; rewrite CatchPanic_unfold, H; reflexivity).
  split; [apply C |]. split; [| split; [| split]].
  - intros subject message a w0 -> B. cbn [SendEmailException]. rewrite B.
    unfold bind. fold (CatchPanic env fuel (Some None) "SendEmailException" (Some r)).
    rewrite C. reflexivity.
  - intros A zero body w0 B. unfold deferred. rewrite B. unfold bind.
    rewrite C. reflexivity.
  - intros base keep w0 -> B. unfold LogDirectoryCleanup, deferred. rewrite B.
    unfold bind. rewrite C. reflexivity.
  - intros. apply SendEmailException_never_panics.
Qed.

Lemma recovered_panic_is_contained_witness :
  secondary_alert (sim_mail (fun t => Nat.ltb t 2)) 1 "SendEmailException"
    "smtp: connection state lost"
    (snd (SendEmailException_body (sim_mail (fun t => Nat.ltb t 2)) "subject"
            "disk full" [] configured))
  = (Returned None,
     snd (secondary_alert (sim_mail (fun t => Nat.ltb t 2)) 1 "SendEmailException"
            "smtp: connection state lost"
            (snd (SendEmailException_body (sim_mail (fun t => Nat.ltb t 2)) "subject"
                    "disk full" [] configured))))
  /\ CatchPanic (sim_mail (fun t => Nat.ltb t 2)) 1 (Some None) "SendEmailException"
       (Some "smtp: connection state lost")
       (snd (SendEmailException_body (sim_mail (fun t => Nat.ltb t 2)) "subject"
               "disk full" [] configured))
     = (Returned (Some (Some "smtp: connection state lost")),
        snd (secondary_alert (sim_mail (fun t => Nat.ltb t 2)) 1 "SendEmailException"
               "smtp: connection state lost"
               (snd (SendEmailException_body (sim_mail (fun t => Nat.ltb t 2))
                       "subject" "disk full" [] configured)))).
Proof.
  split; [vm_compute; reflexivity |].
  apply (recovered_panic_is_contained (sim_mail (fun t => Nat.ltb t 2)) 1 (Some None)
           "SendEmailException" "smtp: connection state lost"
           (snd (SendEmailException_body (sim_mail (fun t => Nat.ltb t 2)) "subject"
                   "disk full" [] configured))
           None).
  vm_compute; reflexivity.
Defined.

Lemma persistent_panic_runs_out env : 
  (forall t addr auth from to msg, exists v, smtp_SendMail env t addr auth from to msg = ExtPanic v) ->
  forall fuel subject message a w cfg,
  traceLog.EmailConfiguration (logger w) = Some cfg ->
  fst (SendEmailException env fuel subject message a w) = OutOfFuel.
Proof.
  intros P. induction fuel as [| fuel IH]; intros subject message a w cfg H;
    [reflexivity |].
  cbn [SendEmailException]. unfold SendEmailException_body.
  unfold bind at 1, get_logger at 1. rewrite H.
  unfold bind at 1, emit at 1. unfold ask_ext at 1.
  unfold bind at 1. unfold bind at 1, ask at 1. cbn [logger events tick].
  match goal with |- context [template_Execute env ?t ?tpl ?p] =>
    destruct (template_Execute env t tpl p) as [emailMessage | v] end.
  - unfold ret at 1. unfold bind at 1, emit at 1. unfold ask_ext at 1.
    unfold bind at 1. unfold bind at 1, ask at 1. cbn [logger events tick].
    match goal with |- context [smtp_SendMail env ?t ?ad ?au ?f ?to ?m] =>
      destruct (P t ad au f to m) as [v ->] end.
    unfold panic at 1.
    fold (CatchPanic env fuel (Some None) "SendEmailException" (Some v)).
    unfold bind. rewrite CatchPanic_unfold. unfold secondary_alert.
    match goal with |- context [SendEmailException env fuel ?s ?m ?a0 ?w0] =>
      pose proof (IH s m a0 w0 cfg H) as Q;
      destruct (SendEmailException env fuel s m a0 w0) as [o w3] end.
    cbn in Q. subst o. reflexivity.
  - unfold panic at 1.
    fold (CatchPanic env fuel (Some None) "SendEmailException" (Some v)).
    unfold bind. rewrite CatchPanic_unfold. unfold secondary_alert.
    match goal with |- context [SendEmailException env fuel ?s ?m ?a0 ?w0] =>
      pose proof (IH s m a0 w0 cfg H) as Q;
      destruct (SendEmailException env fuel s m a0 w0) as [o w3] end.
    cbn in Q. subst o. reflexivity.
Qed.

(** C7 (what the code does). With an email configuration set and a mail
    client that panics on every send, the send inside [SendEmailException]
    panics; [CatchPanic] recovers the panic and sends its secondary alert
    through [SendEmailException], whose send panics as the first one did,
    and so does the alert sent for that one, without end: neither
    [CatchPanic] nor [SendEmailException] ever comes back to its caller,
    and no error is ever stored in the slot. *)
Theorem persistent_panic_never_comes_back :
  fst (SendEmailException_body (sim_mail (fun _ => true)) "subject" "disk full" []
         configured)
  = Panicked "smtp: connection state lost"
  /\ ~ comes_back
        (fun fuel =>
           CatchPanic (sim_mail (fun _ => true)) fuel (Some None)
             "SendEmailException" (Some "smtp: connection state lost")
             (snd (SendEmailException_body (sim_mail (fun _ => true)) "subject"
                     "disk full" [] configured)))
  /\ ~ comes_back
        (fun fuel =>
           SendEmailException (sim_mail (fun _ => true)) fuel "subject" "disk full" []
             configured).
Proof.
  assert (P : forall t addr auth from to msg,
             exists v, smtp_SendMail (sim_mail (fun _ => true)) t addr auth from to msg
                       = ExtPanic v)
    by (intros; eexists; reflexivity).
  split; [reflexivity |]. split.
  - intros (fuel & e & w' & H). rewrite CatchPanic_unfold in H.
    unfold secondary_alert in H.
    match type of H with context [SendEmailException ?en fuel ?s ?m ?a0 ?w0] =>
      pose proof (persistent_panic_runs_out en P fuel s m a0 w0 _ eq_refl) as Q;
      destruct (SendEmailException en fuel s m a0 w0) as [o w3] end.
    cbn in Q. subst o. discriminate H.
  - intros (fuel & e & w' & H).
    pose proof (persistent_panic_runs_out _ P fuel "subject" "disk full" []
                  configured _ eq_refl) as Q.
    rewrite H in Q. discriminate Q.
Qed.

(** ** The serialization lock *)

Lemma flow_disciplined A : forall b b' R,
  flow b A = Some b' -> disciplined b (A ++ R)%list = disciplined b' R.
Proof.
  induction A as [| s A IH]; intros b b' R H; cbn in *.
  - inversion H; reflexivity.
  - destruct s, b; cbn; try discriminate H; eauto.
Qed.

Lemma flow_app A : forall b b' B b'',
  flow b A = Some b' -> flow b' B = Some b'' -> flow b (A ++ B)%list = Some b''.
Proof.
  induction A as [| s A IH]; intros b b' B b'' H1 H2; cbn in *.
  - inversion H1; subst; exact H2.
  - destruct s, b; cbn; try discriminate H1; eauto.
Qed.

Lemma flow_writes w l : flow true (map (SWrite w) l) = Some true.
Proof. induction l; cbn; auto. Qed.

Lemma flow_mail evs b : forallb is_mail evs = true -> flow b (steps_of evs) = Some b.
Proof.
  induction evs as [| e evs IH]; [reflexivity |]. cbn [forallb].
  intros H. apply andb_prop in H as [He H].
  destruct e; try discriminate He; cbn; auto.
Qed.

Lemma flow_line lg d line :
  flow false (steps_of (line_events lg d line)) = Some false.
Proof.
  unfold line_events, steps_of. cbn [flat_map steps_of_event app flow].
  apply (flow_app _ true true [SUnlock] false); [apply flow_writes | reflexivity].
Qed.

Lemma flow_call env fuel c w :
  ready (logger w) = true ->
  flow false (steps_of (events_of (run_call env fuel c) w)) = Some false.
Proof.
  intros R. destruct (run_call_events env fuel c w R) as (mail & -> & Hm).
  destruct (is_alert (call_kind c)); [| apply flow_line].
  unfold steps_of. cbn [flat_map steps_of_event app flow].
  apply (flow_app _ true true _ false); [apply flow_writes |].
  cbn [app flow]. apply flow_mail, Hm.
Qed.

Lemma caller_disciplined env steps : caller env steps -> disciplined false steps = true.
Proof.
  induction 1 as [| fuel c w rest R _ IH]; [reflexivity |].
  rewrite (flow_disciplined _ false false rest (flow_call env fuel c w R)). exact IH.
Qed.

Lemma nth_error_update_nth {A} (l : list A) : forall i j x,
  nth_error (update_nth l i x) j
  = if Nat.eqb i j then option_map (fun _ => x) (nth_error l i) else nth_error l j.
Proof.
  induction l as [| h t IH]; intros [| i] [| j] x; cbn; try reflexivity.
  - destruct (Nat.eqb i j); reflexivity.
  - apply IH.
Qed.

Lemma step_orderly m i s m' :
  orderly m -> step m i = Some (s, m') ->
  orderly m' /\ exclusive (holder m) [(i, s)] = true
  /\ holder m' = match s with
                 | SLock => Some i
                 | SUnlock => None
                 | _ => holder m
                 end.
Proof.
  intros O H. unfold step in H.
  destruct (nth_error (goroutines m) i) as [[| s0 rest] |] eqn:E; try discriminate H.
  pose proof (O i _ E) as D.
  assert (K : forall h',
    (forall j, j <> i -> holds h' j = holds (holder m) j) ->
    disciplined (holds h' i) rest = true ->
    orderly {| holder := h'; goroutines := update_nth (goroutines m) i rest |}).
  { intros h' Hj Hd j steps. cbn [goroutines holder].
    rewrite nth_error_update_nth. destruct (Nat.eqb_spec i j) as [<- | N].
    - rewrite E. cbn. intros Q; inversion Q; subst. exact Hd.
    - intros Q. rewrite Hj by congruence. apply O, Q. }
  destruct s0.
  - destruct (holder m) eqn:Hh; [discriminate H |]. inversion H; subst. cbn.
    cbn in D. split; [| auto].
    apply K.
    + intros j N. cbn. apply Nat.eqb_neq. congruence.
    + cbn. rewrite Nat.eqb_refl. exact D.
  - destruct (holder m) as [k |] eqn:Hh; [| discriminate H]. inversion H; subst.
    cbn in D. apply andb_prop in D as [D1 D2]. cbn. rewrite D1.
    split; [| auto].
    apply K; [| exact D2].
    intros j N. cbn. apply Nat.eqb_eq in D1. subst k. symmetry.
    apply Nat.eqb_neq. congruence.
  - inversion H; subst. cbn in D. apply andb_prop in D as [D1 D2]. cbn.
    rewrite D1. split; [| destruct (holder m); auto].
    apply K; auto.
  - inversion H; subst. cbn in D. cbn. split; [| destruct (holder m); auto].
    apply K; auto.
Qed.

Lemma exclusive_cons h i s tr :
  exclusive h ((i, s) :: tr)
  = exclusive h [(i, s)]
    && exclusive (match s with
                  | SLock => Some i
                  | SUnlock => None
                  | _ => h
                  end) tr.
Proof.
  destruct s; cbn.
  - destruct h; reflexivity.
  - rewrite andb_true_r. reflexivity.
  - rewrite andb_true_r. reflexivity.
  - reflexivity.
Qed.

Lemma run_exclusive : forall schedule m tr m',
  orderly m -> run m schedule = Some (tr, m') ->
  exclusive (holder m) tr = true /\ orderly m'.
Proof.
  induction schedule as [| i rest IH]; intros m tr m' O H; cbn in H.
  - inversion H; subst. auto.
  - destruct (step m i) as [[s m1] |] eqn:S; [| discriminate H].
    destruct (run m1 rest) as [[tr1 m2] |] eqn:R; [| discriminate H].
    inversion H; subst.
    destruct (step_orderly m i s m1 O S) as (O1 & X & Hh).
    destruct (IH m1 tr1 m' O1 R) as [X1 O2]. split; [| exact O2].
    rewrite exclusive_cons, X, <- Hh, X1. reflexivity.
Qed.

Lemma callers_orderly env gs :
  Forall (caller env) gs -> orderly {| holder := None; goroutines := gs |}.
Proof.
  intros F i steps H. cbn in *. apply (caller_disciplined env).
  rewrite Forall_forall in F. apply F. eapply nth_error_In, H.
Qed.

Lemma locked_while_mail b evs :
  forallb is_mail evs = true -> locked_while is_write b evs = true.
Proof.
  induction evs as [| e evs IH]; [reflexivity |]. cbn [forallb].
  intros H. apply andb_prop in H as [He H].
  destruct e; try discriminate He; cbn; auto.
Qed.

(** C9 (as amended). Every logging call made on a logger that is ready
    hands its line to the sink while it holds the serialization lock. A
    call that sends no alert composes its line under the lock as well; an
    alert call composes its message before it takes the lock, and renders
    and sends the mail after it has released it. Goroutines that make such
    calls, scheduled in any order the mutex allows, write every byte of a
    line while holding the lock, one holder at a time: no line is torn. *)
Theorem sink_writes_are_serialized :
  forall (env : Env) (fuel : nat) (c : LogCall) (w : World),
    ready (logger w) = true ->
    locked_while is_write false (events_of (run_call env fuel c) w) = true
    /\ (exists mail,
          events_of (run_call env fuel c) w
          = (if is_alert (call_kind c)
             then EvFormat (expected_line env c) :: EvLock
                  :: EvOutput (the_logger (logger w) SevError) (depth_of c)
                              (expected_line env c)
                  :: EvUnlock :: mail
             else [EvLock; EvFormat (expected_line env c);
                   EvOutput (the_logger (logger w) (severity_of (call_kind c)))
                            (depth_of c) (expected_line env c);
                   EvUnlock])
          /\ forallb is_mail mail = true)
    /\ (forall (gs : list (list Step)) (schedule : list nat)
               (tr : list (nat * Step)) (m' : Machine),
          Forall (caller env) gs ->
          run {| holder := None; goroutines := gs |} schedule = Some (tr, m') ->
          exclusive None tr = true).
Proof.
  intros env fuel c w R.
  destruct (run_call_events env fuel c w R) as (mail & E & Hm).
  split; [| split].
  - rewrite E. destruct (is_alert (call_kind c)); [| reflexivity].
    cbn. apply locked_while_mail, Hm.
  - exists mail. split; [exact E | exact Hm].
  - intros gs schedule tr m' F H.
    apply (run_exclusive schedule _ tr m' (callers_orderly env gs F) H).
Qed.

Lemma sink_writes_are_serialized_witness :
  ready (logger configured) = true
  /\ locked_while is_write false
       (events_of (run_call (sim [] None) 1 alert_call) configured) = true
  /\ (exists tr m', run two_callers a_schedule = Some (tr, m')
                    /\ exclusive None tr = true).
Proof.
  split; [reflexivity |].
  destruct (sink_writes_are_serialized (sim [] None) 1 alert_call configured eq_refl)
    as (L & _ & X).
  split; [exact L |].
  destruct (run two_callers a_schedule) as [[tr m'] |] eqn:E;
    [| vm_compute in E; discriminate E].
  exists tr, m'. split; [reflexivity |].
  apply (X (goroutines two_callers) a_schedule tr m'); [| exact E].
  repeat constructor.
Defined.

(** C9 (as stated) fails: [Alert] composes its message
    before it takes the lock, and the mail is rendered and sent after the
    lock has been released. *)
Lemma alert_is_composed_outside_the_lock :
  events_of (run_call (sim [] None) 1 alert_call) configured
  = [EvFormat ("main : save : ALERT : full" ++ GoStrings.LF);
     EvLock;
     EvOutput (log_New Stderr "ERROR: " stdFlags) 2
              ("main : save : ALERT : full" ++ GoStrings.LF);
     EvUnlock;
     EvExecute {| param_From := "ops"; param_To := "oncall@example.com";
                  param_Subject := "disk";
                  param_Message := "main : save : ALERT : full" ++ GoStrings.LF |};
     EvSendMail "smtp.example.com:25" "ops" ["oncall@example.com"]
                (rendered_email
                   {| param_From := "ops"; param_To := "oncall@example.com";
                      param_Subject := "disk";
                      param_Message :=
                        "main : save : ALERT : full" ++ GoStrings.LF |})]
  /\ locked_while is_write_or_composition false
       (events_of (run_call (sim [] None) 1 alert_call) configured) = false.
Proof. split; vm_compute; reflexivity. Qed.

(** * Further properties of the package *)

(** ** The mask and the sinks *)

Lemma bit_set_low (L m : Z) :
  Z.land level_bits m = m -> bit_set (Z.land L level_bits) m = bit_set L m.
Proof.
  intros H. unfold bit_set. rewrite <- Z.land_assoc, H. reflexivity.
Qed.

(** X1. Only the four bits TRACE, INFO, WARN and ERROR of the mask count:
    [turnOnLogging] builds the same four sinks for a mask and for the mask
    cut down to these bits, with or without a file. *)
Theorem other_bits_of_the_mask_are_ignored :
  forall (L : Z) (fileHandle : option Writer) (s : Severity),
    sink_of (turnOnLogging L fileHandle) s
    = sink_of (turnOnLogging (Z.land L level_bits) fileHandle) s.
Proof.
  intros L fh s. unfold sink_of, logger_of, turnOnLogging.
  rewrite !bit_set_low by reflexivity.
  split_mask L; destruct fh, s; reflexivity.
Qed.

(** X2. A sink is open exactly when the bit of its severity or of a more
    verbose one is set, with a file handle as without: trace needs TRACE;
    info needs TRACE or INFO; warning needs TRACE, INFO or WARN; error
    needs any of the four. So with none of the four bits set every sink is
    the discard writer, and a log file that was opened is never written. *)
Theorem open_sinks_by_bits :
  forall (L : Z) (fileHandle : option Writer),
    sink_open L fileHandle SevTrace = bit_set L LEVEL_TRACE
    /\ sink_open L fileHandle SevInfo
       = bit_set L LEVEL_TRACE || bit_set L LEVEL_INFO
    /\ sink_open L fileHandle SevWarning
       = bit_set L LEVEL_TRACE || bit_set L LEVEL_INFO || bit_set L LEVEL_WARN
    /\ sink_open L fileHandle SevError
       = bit_set L LEVEL_TRACE || bit_set L LEVEL_INFO || bit_set L LEVEL_WARN
         || bit_set L LEVEL_ERROR.
Proof.
  intros L fh. unfold sink_open, sink_of, logger_of, turnOnLogging.
  split_mask L; destruct fh; repeat split; reflexivity.
Qed.

(** X3. Whatever the mask and the file, the sinks of trace, info and
    warning never write to standard error, and write to standard output
    when they are open; the sink of error never writes to standard output,
    and writes to standard error when it is open. *)
Theorem streams_are_kept_apart :
  forall (L : Z) (fd : option nat) (s : Severity),
    exists w,
      sink_of (turnOnLogging L (option_map OsFile fd)) s = Some w
      /\ match s with
         | SevError => reaches_stdout w = false /\ reaches_stderr w = active w
         | _ => reaches_stderr w = false /\ reaches_stdout w = active w
         end.
Proof.
  intros L fd s. unfold sink_of, logger_of, turnOnLogging.
  split_mask L; destruct fd, s; cbn; eauto.
Qed.

(** ** The logging calls *)

Lemma plain_call_run env fuel c w :
  is_alert (call_kind c) = false ->
  ready (logger w) = true ->
  run_call env fuel c w
  = (Returned tt,
     add_events w
       (line_events (the_logger (logger w) (severity_of (call_kind c)))
          (depth_of c) (expected_line env c))).
Proof.
  intros K R. rewrite (run_call_plain env fuel c K). apply log_line_run, R.
Qed.

(** X4. A logging call that sends no alert, made on a logger that is
    ready, returns. It takes the lock, composes its line, hands it to the
    logger of its severity and releases the lock, in this order and nothing
    else; it asks nothing of the environment and leaves the logger as it
    was, ready for the next call. *)
Theorem plain_call_returns_and_restores :
  forall (env : Env) (fuel : nat) (c : LogCall) (w : World),
    is_alert (call_kind c) = false ->
    ready (logger w) = true ->
    fst (run_call env fuel c w) = Returned tt
    /\ logger (snd (run_call env fuel c w)) = logger w
    /\ tick (snd (run_call env fuel c w)) = tick w
    /\ events_of (run_call env fuel c) w
       = [EvLock;
          EvFormat (expected_line env c);
          EvOutput (the_logger (logger w) (severity_of (call_kind c)))
                   (depth_of c) (expected_line env c);
          EvUnlock].
Proof.
  intros env fuel c w K R.
  rewrite (events_of_add_events _ _ _ _ (plain_call_run env fuel c w K R)).
  rewrite (plain_call_run env fuel c w K R). cbn. auto.
Qed.

Lemma plain_call_returns_and_restores_witness :
  fst (run_call (sim [] None) 1 info_call (fresh (turnOnLogging LEVEL_WARN None)))
  = Returned tt
  /\ logger (snd (run_call (sim [] None) 1 info_call
                    (fresh (turnOnLogging LEVEL_WARN None))))
     = turnOnLogging LEVEL_WARN None.
Proof.
  destruct (plain_call_returns_and_restores (sim [] None) 1 info_call
              (fresh (turnOnLogging LEVEL_WARN None)) eq_refl eq_refl)
    as (A & B & _).
  split; [exact A | exact B].
Defined.

(** X5. The [cd] twin of a logging function, called with call depth 2,
    does what the plain function does: same outcome, same world. *)
Theorem cd_twin_at_depth_2 :
  forall (env : Env) (fuel : nat) (c : LogCall) (w : World),
    run_call env fuel (with_depth (Some 2) c) w
    = run_call env fuel (with_depth None c) w.
Proof.
  intros env fuel [k d sub e t f fmt a] w. destruct k; reflexivity.
Qed.

(** ** Calls before [Start], and on a locked mutex *)

Lemma locked_call_blocks env fuel c w :
  traceLog.Serialize (logger w) = true ->
  fst (run_call env fuel c w) = Stuck
  /\ logger (snd (run_call env fuel c w)) = logger w
  /\ output_lines (events_of (run_call env fuel c) w) = [].
Proof.
  intros H. destruct (is_alert (call_kind c)) eqn:K.
  - rewrite (run_call_alert env fuel c K).
    unfold events_of, bind, composed, Lock, bind, emit, ret, get_logger.
    cbn. rewrite H. cbn.
    rewrite skipn_app, skipn_all, Nat.sub_diag. auto.
  - rewrite (run_call_plain env fuel c K).
    unfold events_of, log_line, bind, Lock, bind, get_logger.
    cbn. rewrite H. cbn. rewrite skipn_all. auto.
Qed.

Lemma call_without_logger env fuel c w :
  traceLog.Serialize (logger w) = false ->
  logger_of (logger w) (severity_of (call_kind c)) = None ->
  fst (run_call env fuel c w) = Panicked nilDereference
  /\ logger (snd (run_call env fuel c w)) = with_Serialize true (logger w)
  /\ output_lines (events_of (run_call env fuel c) w) = [].
Proof.
  intros U N.
  assert (N' : logger_of (with_Serialize true (logger w)) (severity_of (call_kind c))
               = None)
    by (rewrite <- N; destruct (severity_of (call_kind c)); reflexivity).
  destruct (is_alert (call_kind c)) eqn:K.
  - assert (S : severity_of (call_kind c) = SevError)
      by (destruct (call_kind c); try discriminate K; reflexivity).
    rewrite S in N. cbn in N.
    rewrite (run_call_alert env fuel c K).
    unfold events_of, bind, composed, Lock, Output, bind, emit, ret, get_logger,
      set_logger, panic.
    cbn. rewrite U. cbn. rewrite N. cbn.
    rewrite <- app_assoc, skipn_app, skipn_all, Nat.sub_diag. auto.
  - rewrite (run_call_plain env fuel c K).
    unfold events_of, log_line, bind, composed, Lock, Output, bind, emit, ret,
      get_logger, set_logger, panic.
    cbn. rewrite U. cbn. rewrite N'. cbn.
    rewrite <- app_assoc, skipn_app, skipn_all, Nat.sub_diag. auto.
Qed.

(** X6. A logging call made when the logger of its severity is [nil], as
    every one is before [Start] or [StartFile] has run, panics on the [nil]
    pointer after it has taken the mutex: no line is written, and the mutex
    stays locked, since no call releases it in a deferred statement. If the
    caller recovers the panic, every later logging call, of whatever kind,
    blocks on the mutex and writes nothing. *)
Theorem call_before_Start_panics_holding_the_lock :
  forall (env : Env) (fuel : nat) (c : LogCall) (w : World),
    traceLog.Serialize (logger w) = false ->
    logger_of (logger w) (severity_of (call_kind c)) = None ->
    fst (run_call env fuel c w) = Panicked nilDereference
    /\ traceLog.Serialize (logger (snd (run_call env fuel c w))) = true
    /\ output_lines (events_of (run_call env fuel c) w) = []
    /\ (forall (env' : Env) (fuel' : nat) (c' : LogCall),
          fst (run_call env' fuel' c' (snd (run_call env fuel c w))) = Stuck
          /\ output_lines
               (events_of (run_call env' fuel' c') (snd (run_call env fuel c w)))
             = []).
Proof.
  intros env fuel c w U N.
  destruct (call_without_logger env fuel c w U N) as (P & Lg & O).
  assert (S : traceLog.Serialize (logger (snd (run_call env fuel c w))) = true)
    by (rewrite Lg; reflexivity).
  repeat split; auto; apply locked_call_blocks; exact S.
Qed.

Lemma call_before_Start_panics_holding_the_lock_witness :
  fst (run_call (sim [] None) 1 info_call (fresh zero_traceLog))
  = Panicked nilDereference
  /\ fst (run_call (sim [] None) 1 alert_call
            (snd (run_call (sim [] None) 1 info_call (fresh zero_traceLog))))
     = Stuck.
Proof.
  destruct (call_before_Start_panics_holding_the_lock (sim [] None) 1 info_call
              (fresh zero_traceLog) eq_refl eq_refl) as (P & _ & _ & B).
  split; [exact P | exact (proj1 (B (sim [] None) 1%nat alert_call))].
Defined.

(** ** Which sink a call writes to *)

Lemma output_writers_mail evs :
  forallb is_mail evs = true -> output_writers evs = [].
Proof.
  induction evs as [| e evs IH]; [reflexivity |]. cbn [forallb].
  intros H. apply andb_prop in H as [He H]. destruct e; try discriminate He; cbn; auto.
Qed.

Lemma call_output_writers env fuel c w :
  ready (logger w) = true ->
  output_writers (events_of (run_call env fuel c) w)
  = [logger_out (the_logger (logger w) (severity_of (call_kind c)))].
Proof.
  intros R. destruct (run_call_events env fuel c w R) as (mail & -> & Hm).
  destruct (is_alert (call_kind c)) eqn:K.
  - assert (S : severity_of (call_kind c) = SevError)
      by (destruct (call_kind c); try discriminate K; reflexivity).
    rewrite S. cbn. rewrite (output_writers_mail _ Hm). reflexivity.
  - reflexivity.
Qed.

Lemma the_logger_out l s w :
  sink_of l s = Some w -> logger_out (the_logger l s) = w.
Proof.
  unfold sink_of, the_logger. destruct (logger_of l s); cbn; congruence.
Qed.

(** X7. After [Start] with mask [L], every logging call hands its one
    line to the console sink the mask gives its severity: [Started],
    [Startedf], [Completed], [Completedf] and [Trace] write through the
    trace logger, [Info] through the info logger, [Warning] through the
    warning logger, and the [Error], [CompletedError] and [Alert] calls
    through the error logger. So the start and completion lines of a
    function are seen only when the TRACE bit is set. After [StartFile] has
    opened file [fd], the line goes to the fan-out of the file and that
    console sink when the latter is open, and is discarded otherwise. *)
Theorem a_call_writes_to_the_sink_of_its_severity :
  forall (env : Env) (fuel : nat) (c : LogCall) (L : Z) (w : World),
    output_writers (events_of (run_call env fuel c) (snd (Start L w)))
    = [cascade L (severity_of (call_kind c))]
    /\ forall (fd : nat) (t : nat) (evs : list Event),
         output_writers
           (events_of (run_call env fuel c)
              {| logger := turnOnLogging L (Some (OsFile fd));
                 events := evs; tick := t |})
         = [if active (cascade L (severity_of (call_kind c)))
            then MultiWriter [OsFile fd; cascade L (severity_of (call_kind c))]
            else Discard].
Proof.
  intros env fuel c L w. split; [| intros fd t evs];
    rewrite call_output_writers by apply turnOnLogging_ready; cbn [logger snd Start set_logger];
    f_equal; apply the_logger_out.
  - apply console_sink_cascade.
  - rewrite turnOnLogging_file_sink, console_sink_cascade. reflexivity.
Qed.

(** X8. [LogLevel] reads back the mask the logging was started with, as
    it was given (bits that mean nothing included), and 0 before any
    start. *)
Theorem LogLevel_reads_back_the_mask :
  (forall (L : Z) (w : World),
      fst (LogLevel (snd (Start L w))) = Returned L)
  /\ (forall (env : Env) (fuel : nat) (L : Z) (base : string) (keep : Z)
             (w w1 : World),
        StartFile env (S fuel) L base keep w = (Returned tt, w1) ->
        fst (LogLevel w1) = Returned L)
  /\ fst (LogLevel (fresh zero_traceLog)) = Returned 0.
Proof.
  split; [| split]; [| | reflexivity].
  - intros L w. cbn. unfold turnOnLogging. split_mask L; reflexivity.
  - intros env fuel L base keep w w1 H.
    destruct (StartFile_run env fuel L base keep w)
      as (w' & [[E _] | (logf & E & Hl & _)]);
      rewrite H in E; inversion E; subst w'.
    unfold LogLevel, bind, get_logger, ret. cbn. rewrite Hl.
    unfold turnOnLogging. split_mask L; reflexivity.
Qed.

Lemma LogLevel_reads_back_the_mask_witness :
  fst (LogLevel (snd (StartFile (sim [] None) 1 (Z.lor LEVEL_WARN 32) "/logs" 5
                        (fresh zero_traceLog))))
  = Returned 36.
Proof.
  apply (proj1 (proj2 LogLevel_reads_back_the_mask) (sim [] None) 0%nat
           (Z.lor LEVEL_WARN 32) "/logs" 5 (fresh zero_traceLog)).
  vm_compute. reflexivity.
Defined.

(** ** Mail *)

Lemma string_app_nil (s : string) : s ++ "" = s.
Proof. induction s; cbn; congruence. Qed.

Lemma mail_address_eq cfg :
  GoFmt.Sprintf "%s:%d" [VString (Host cfg); VInt (Port cfg)] = mail_address cfg.
Proof. unfold mail_address. cbn. rewrite string_app_nil. reflexivity. Qed.

Lemma SendEmailException_delivers env fuel subject message a w cfg msg e :
  traceLog.EmailConfiguration (logger w) = Some cfg ->
  template_Execute env (tick w) (Template cfg)
    (mail_parameters env cfg subject message a) = ExtReturn msg ->
  smtp_SendMail env (S (tick w)) (mail_address cfg) (Auth cfg) (UserName cfg)
    (To cfg) msg = ExtReturn e ->
  SendEmailException env (S fuel) subject message a w
  = (Returned e,
     {| logger := logger w;
        events := events w
                  ++ [EvExecute (mail_parameters env cfg subject message a);
                      EvSendMail (mail_address cfg) (UserName cfg) (To cfg) msg];
        tick := S (S (tick w)) |}).
Proof.
  intros C T S. cbn [SendEmailException]. unfold SendEmailException_body.
  unfold bind at 1, get_logger at 1. rewrite C.
  fold (mail_parameters env cfg subject message a). rewrite mail_address_eq.
  unfold bind at 1, emit at 1. unfold ask_ext at 1.
  unfold bind at 1. unfold bind at 1, ask at 1. cbn [logger events tick].
  rewrite T. unfold ret at 1. unfold bind at 1, emit at 1. unfold ask_ext at 1.
  unfold bind at 1. unfold bind at 1, ask at 1. cbn [logger events tick].
  rewrite S. unfold ret at 1. unfold ret at 1. unfold CatchPanic_with, bind, ret.
  rewrite <- !app_assoc. reflexivity.
Qed.

(** X9. [SendEmailException] writes no log line and leaves the logger as
    it is, whether the mail goes out or not, and it never ends in a panic:
    a mail that could not be sent leaves no trace in the log. With a
    configuration set, when the template and the mail client return, it
    renders the template once, with the user name as sender, the recipients
    joined by commas, the subject, and the message formatted with the
    operands; it sends the rendered text once, to [host:port], and returns
    what the mail client returned. *)
Theorem SendEmailException_sends_one_mail :
  forall (env : Env) (fuel : nat) (subject message : string) (a : list Value)
         (w : World),
    (logger (snd (SendEmailException env fuel subject message a w)) = logger w
     /\ output_lines (events_of (SendEmailException env fuel subject message a) w) = []
     /\ forall v, fst (SendEmailException env fuel subject message a w) <> Panicked v)
    /\ forall (cfg : emailConfiguration) (msg : string) (e : error),
         traceLog.EmailConfiguration (logger w) = Some cfg ->
         template_Execute env (tick w) (Template cfg)
           (mail_parameters env cfg subject message a) = ExtReturn msg ->
         smtp_SendMail env (S (tick w)) (mail_address cfg) (Auth cfg) (UserName cfg)
           (To cfg) msg = ExtReturn e ->
         fst (SendEmailException env (S fuel) subject message a w) = Returned e
         /\ events_of (SendEmailException env (S fuel) subject message a) w
            = [EvExecute (mail_parameters env cfg subject message a);
               EvSendMail (mail_address cfg) (UserName cfg) (To cfg) msg].
Proof.
  intros env fuel subject message a w. split.
  - destruct (SendEmailException_mail_only env fuel subject message a w)
      as (o & evs & n & E & Hm & Ho).
    rewrite (events_of_extends _ _ _ _ _ _ E), E. cbn [fst snd logger].
    split; [reflexivity |]. split; [apply mail_only_no_output, Hm |].
    intros v. destruct Ho as [[e ->] | ->]; discriminate.
  - intros cfg msg e C T S.
    pose proof (SendEmailException_delivers env fuel subject message a w cfg msg e
                  C T S) as E.
    rewrite (events_of_extends _ _ _ _ _ _ E), E. split; reflexivity.
Qed.

Lemma SendEmailException_sends_one_mail_witness :
  fst (SendEmailException (sim [] None) 1 "disk" "full: %d%%" [VInt 97] configured)
  = Returned None
  /\ events_of (SendEmailException (sim [] None) 1 "disk" "full: %d%%" [VInt 97])
       configured
     = [EvExecute {| param_From := "ops"; param_To := "oncall@example.com";
                     param_Subject := "disk"; param_Message := "full: 97%" |};
        EvSendMail "smtp.example.com:25" "ops" ["oncall@example.com"]
          (rendered_email
             {| param_From := "ops"; param_To := "oncall@example.com";
                param_Subject := "disk"; param_Message := "full: 97%" |})].
Proof.
  apply (proj2 (SendEmailException_sends_one_mail (sim [] None) 0
                  "disk" "full: %d%%" [VInt 97] configured)
           (configuration "smtp.example.com" 25 "ops" "secret"
              ["oncall@example.com"])
           (rendered_email
              {| param_From := "ops"; param_To := "oncall@example.com";
                 param_Subject := "disk"; param_Message := "full: 97%" |})
           None eq_refl eq_refl eq_refl).
Defined.

Lemma alert_line_run {B} d line (k : string -> M B) w :
  ready (logger w) = true ->
  (message <- composed line ;;
   Lock ;;
   Output SevError d message ;;
   Unlock ;;
   k message) w
  = k line (add_events w [EvFormat line; EvLock;
                          EvOutput (the_logger (logger w) SevError) d line;
                          EvUnlock]).
Proof.
  intros R. pose proof (ready_unlocked _ R) as U.
  destruct (ready_logger_of _ SevError R) as [lg Hlg].
  unfold the_logger. rewrite Hlg.
  unfold bind at 1, composed at 1. unfold bind at 1, emit at 1, ret at 1.
  unfold bind at 1, Lock at 1. unfold bind at 1, get_logger at 1.
  cbn [logger events tick]. rewrite U.
  unfold bind at 1, set_logger at 1, emit at 1. cbn [logger events tick].
  unfold bind at 1, Output at 1. unfold bind at 1, get_logger at 1.
  cbn [logger events tick].
  replace (logger_of (with_Serialize true (logger w)) SevError) with (Some lg)
    by (rewrite <- Hlg; reflexivity).
  unfold emit at 1. cbn [logger events tick].
  unfold bind at 1, Unlock at 1. unfold bind at 1, get_logger at 1.
  cbn [logger events tick traceLog.Serialize with_Serialize].
  unfold bind at 1, set_logger at 1, emit at 1. cbn [logger events tick].
  rewrite (with_Serialize_unlock _ U). unfold add_events.
  rewrite <- !app_assoc. reflexivity.
Qed.

(** X10. An alert call made after [ConfigureEmail], on a logger that is
    ready, writes its line through the error logger under the lock and
    then, the lock released, sends one mail: from the configured user to
    the configured recipients at [host:port], with the subject of the
    call, and as message the log line itself, newline included, formatted
    once more with no operands. The call returns whatever the mail client
    reports: the error of the send is dropped. *)
Theorem alert_mails_its_line :
  forall (env : Env) (fuel : nat) (c : LogCall) (w : World)
         (host : string) (port : Z) (userName password : string)
         (to : list string) (msg : string) (e : error),
    is_alert (call_kind c) = true ->
    ready (logger w) = true ->
    template_Execute env (tick w) EmailScript
      {| param_From := userName; param_To := GoStrings.Join to ",";
         param_Subject := call_subject c;
         param_Message := fmt_Sprintf env (expected_line env c) [] |}
    = ExtReturn msg ->
    smtp_SendMail env (S (tick w)) (host ++ ":" ++ GoStrings.Itoa port)
      ("", userName, password, host) userName to msg = ExtReturn e ->
    fst (run_call env (S fuel) c
           (snd (ConfigureEmail host port userName password to w)))
    = Returned tt
    /\ events_of (run_call env (S fuel) c)
         (snd (ConfigureEmail host port userName password to w))
       = [EvFormat (expected_line env c); EvLock;
          EvOutput (the_logger (logger w) SevError) (depth_of c)
                   (expected_line env c);
          EvUnlock;
          EvExecute {| param_From := userName; param_To := GoStrings.Join to ",";
                       param_Subject := call_subject c;
                       param_Message := fmt_Sprintf env (expected_line env c) [] |};
          EvSendMail (host ++ ":" ++ GoStrings.Itoa port) userName to msg].
Proof.
  intros env fuel c w host port userName password to msg e K R T Hs.
  set (w1 := snd (ConfigureEmail host port userName password to w)).
  assert (R1 : ready (logger w1) = true) by exact R.
  assert (L1 : the_logger (logger w1) SevError = the_logger (logger w) SevError)
    by reflexivity.
  assert (E : run_call env (S fuel) c w1
              = (Returned tt,
                 {| logger := logger w1;
                    events := events w1
                      ++ [EvFormat (expected_line env c); EvLock;
                          EvOutput (the_logger (logger w) SevError) (depth_of c)
                                   (expected_line env c);
                          EvUnlock;
                          EvExecute
                            {| param_From := userName;
                               param_To := GoStrings.Join to ",";
                               param_Subject := call_subject c;
                               param_Message :=
                                 fmt_Sprintf env (expected_line env c) [] |};
                          EvSendMail (host ++ ":" ++ GoStrings.Itoa port) userName
                                     to msg];
                    tick := S (S (tick w)) |})).
  { rewrite (run_call_alert env (S fuel) c K).
    etransitivity;
      [exact (alert_line_run (depth_of c) (expected_line env c)
                (fun message =>
                   SendEmailException env (S fuel) (call_subject c) message [] ;;
                   ret tt) w1 R1) |].
    rewrite L1. unfold bind.
    rewrite (SendEmailException_delivers env fuel (call_subject c)
               (expected_line env c) []
               (add_events w1
                  [EvFormat (expected_line env c); EvLock;
                   EvOutput (the_logger (logger w) SevError) (depth_of c)
                            (expected_line env c);
                   EvUnlock])
               (configuration host port userName password to) msg e
               eq_refl T Hs).
    unfold ret, add_events. cbn [logger events tick]. rewrite <- !app_assoc.
    reflexivity. }
  rewrite (events_of_extends _ _ _ _ _ _ E), E. split; reflexivity.
Qed.

Lemma alert_mails_its_line_witness :
  fst (run_call (sim [] None) 1 alert_call configured) = Returned tt
  /\ mail_attempts (events_of (run_call (sim [] None) 1 alert_call) configured)
     = [EvExecute {| param_From := "ops"; param_To := "oncall@example.com";
                     param_Subject := "disk";
                     param_Message := "main : save : ALERT : full" ++ GoStrings.LF |};
        EvSendMail "smtp.example.com:25" "ops" ["oncall@example.com"]
          (rendered_email
             {| param_From := "ops"; param_To := "oncall@example.com";
                param_Subject := "disk";
                param_Message := "main : save : ALERT : full" ++ GoStrings.LF |})].
Proof.
  destruct (alert_mails_its_line (sim [] None) 0 alert_call
              (fresh (turnOnLogging LEVEL_TRACE None))
              "smtp.example.com" 25 "ops" "secret" ["oncall@example.com"]
              (rendered_email
                 {| param_From := "ops"; param_To := "oncall@example.com";
                    param_Subject := "disk";
                    param_Message := "main : save : ALERT : full" ++ GoStrings.LF |})
              None eq_refl eq_refl eq_refl eq_refl) as [A B].
  split; [exact A |]. unfold configured. rewrite B. reflexivity.
Defined.

(** ** StartFile *)

Lemma TrimRight_snoc (s : string) (c : ascii) :
  GoStrings.TrimRight (s ++ String c "") c = GoStrings.TrimRight s c.
Proof.
  induction s as [| a s IH]; cbn.
  - rewrite Ascii.eqb_refl. reflexivity.
  - rewrite IH. reflexivity.
Qed.

(** X11. A trailing slash on the base path makes no difference to
    [StartFile]: the directory, the file and the sweep are the same. *)
Theorem StartFile_ignores_a_trailing_slash :
  forall (env : Env) (fuel : nat) (L : Z) (base : string) (keep : Z) (w : World),
    StartFile env fuel L (base ++ "/") keep w = StartFile env fuel L base keep w.
Proof.
  intros. unfold StartFile. rewrite TrimRight_snoc. reflexivity.
Qed.

Lemma Sprintf_s_s (a b : string) :
  GoFmt.Sprintf "%s%s" [VString a; VString b] = a ++ b.
Proof. cbn. rewrite string_app_nil. reflexivity. Qed.

Lemma StartFile_eq env fuel L base keep w :
  StartFile env fuel L base keep w
  = match os_MkdirAll env (S (S (tick w)))
            (dateDirectory_of base (time_Now env (S (tick w)))) with
    | Some e =>
        (Exited 1,
         {| logger := logger w;
            events := events w
              ++ [EvMkdirAll (dateDirectory_of base (time_Now env (S (tick w))));
                  EvFatal (GoFmt.Sprintf
                             ("main : Start : Failed to Create log directory : %s : %s"
                              ++ GoStrings.LF)
                             [VString (dateDirectory_of base
                                         (time_Now env (S (tick w))));
                              VError (Some e)])];
            tick := S (S (S (tick w))) |})
    | None =>
        match os_Create env (S (S (S (tick w))))
                (dateDirectory_of base (time_Now env (S (tick w)))
                 ++ fileName_of (time_Now env (tick w))) with
        | inr e =>
            (Exited 1,
             {| logger := logger w;
                events := events w
                  ++ [EvMkdirAll (dateDirectory_of base (time_Now env (S (tick w))));
                      EvCreate (dateDirectory_of base (time_Now env (S (tick w)))
                                ++ fileName_of (time_Now env (tick w)));
                      EvFatal (GoFmt.Sprintf
                                 ("main : Start : Failed to Create log file : %s : %s"
                                  ++ GoStrings.LF)
                                 [VString (fileName_of (time_Now env (tick w)));
                                  VError (Some e)])];
                tick := S (S (S (S (tick w)))) |})
        | inl logf =>
            LogDirectoryCleanup env fuel (GoStrings.TrimRight base "/") keep
              {| logger := turnOnLogging L (Some (OsFile logf));
                 events := events w
                   ++ [EvMkdirAll (dateDirectory_of base (time_Now env (S (tick w))));
                       EvCreate (dateDirectory_of base (time_Now env (S (tick w)))
                                 ++ fileName_of (time_Now env (tick w)))];
                 tick := S (S (S (S (tick w)))) |}
        end
    end.
Proof.
  unfold StartFile.
  unfold bind at 1, ask at 1. unfold bind at 1, ask at 1.
  unfold bind at 1, emit at 1. unfold bind at 1, ask at 1.
  cbn [logger events tick].
  fold (dateDirectory_of base (time_Now env (S (tick w)))).
  fold (fileName_of (time_Now env (tick w))).
  rewrite Sprintf_s_s.
  destruct (os_MkdirAll env (S (S (tick w)))
              (dateDirectory_of base (time_Now env (S (tick w))))) as [e |].
  - unfold log_Fatalf, bind, emit, exit. cbn [logger events tick].
    rewrite <- app_assoc. reflexivity.
  - unfold bind at 1, emit at 1. unfold bind at 1, ask at 1.
    cbn [logger events tick].
    destruct (os_Create env (S (S (S (tick w))))
                (dateDirectory_of base (time_Now env (S (tick w)))
                 ++ fileName_of (time_Now env (tick w)))) as [logf | e].
    + unfold bind at 1, set_logger at 1. cbn [logger events tick].
      rewrite <- app_assoc. reflexivity.
    + unfold log_Fatalf, bind, emit, exit. cbn [logger events tick].
      rewrite <- !app_assoc. reflexivity.
Qed.

(** X12. [StartFile] reads the clock twice, names the file after the
    first reading and the directory after the second, and asks for the
    directory [<base>/<date>/] (the base without trailing slashes) before
    anything else. When the directory cannot be made, no file is created;
    when the directory or the file cannot be created, the fatal message is
    printed, the process exits with status 1 and the logger is as it was:
    no log line is written. Otherwise the call returns, whatever the sweep
    meets; the logger is the one [turnOnLogging] builds on the new file,
    and the sweep has sent no mail and closed no file. *)
Theorem StartFile_outcome :
  forall (env : Env) (fuel : nat) (L : Z) (base : string) (keep : Z) (w : World),
    match os_MkdirAll env (S (S (tick w)))
            (dateDirectory_of base (time_Now env (S (tick w)))) with
    | Some e =>
        fst (StartFile env (S fuel) L base keep w) = Exited 1
        /\ logger (snd (StartFile env (S fuel) L base keep w)) = logger w
        /\ events_of (StartFile env (S fuel) L base keep) w
           = [EvMkdirAll (dateDirectory_of base (time_Now env (S (tick w))));
              EvFatal (GoFmt.Sprintf
                         ("main : Start : Failed to Create log directory : %s : %s"
                          ++ GoStrings.LF)
                         [VString (dateDirectory_of base (time_Now env (S (tick w))));
                          VError (Some e)])]
    | None =>
        match os_Create env (S (S (S (tick w))))
                (dateDirectory_of base (time_Now env (S (tick w)))
                 ++ fileName_of (time_Now env (tick w))) with
        | inr e =>
            fst (StartFile env (S fuel) L base keep w) = Exited 1
            /\ logger (snd (StartFile env (S fuel) L base keep w)) = logger w
            /\ events_of (StartFile env (S fuel) L base keep) w
               = [EvMkdirAll (dateDirectory_of base (time_Now env (S (tick w))));
                  EvCreate (dateDirectory_of base (time_Now env (S (tick w)))
                            ++ fileName_of (time_Now env (tick w)));
                  EvFatal (GoFmt.Sprintf
                             ("main : Start : Failed to Create log file : %s : %s"
                              ++ GoStrings.LF)
                             [VString (fileName_of (time_Now env (tick w)));
                              VError (Some e)])]
        | inl logf =>
            fst (StartFile env (S fuel) L base keep w) = Returned tt
            /\ logger (snd (StartFile env (S fuel) L base keep w))
               = turnOnLogging L (Some (OsFile logf))
            /\ exists evs,
                 events_of (StartFile env (S fuel) L base keep) w
                 = EvMkdirAll (dateDirectory_of base (time_Now env (S (tick w))))
                   :: EvCreate (dateDirectory_of base (time_Now env (S (tick w)))
                                ++ fileName_of (time_Now env (tick w)))
                   :: evs
                 /\ mail_attempts evs = [] /\ closed evs = []
        end
    end.
Proof.
  intros env fuel L base keep w.
  pose proof (StartFile_eq env (S fuel) L base keep w) as E.
  destruct (os_MkdirAll env (S (S (tick w)))
              (dateDirectory_of base (time_Now env (S (tick w))))) as [e |].
  - rewrite (events_of_extends _ _ _ _ _ _ E), E. auto.
  - destruct (os_Create env (S (S (S (tick w))))
                (dateDirectory_of base (time_Now env (S (tick w)))
                 ++ fileName_of (time_Now env (tick w)))) as [logf | e].
    + match type of E with _ = LogDirectoryCleanup _ _ _ _ ?w0 =>
        destruct (LogDirectoryCleanup_steady env fuel (GoStrings.TrimRight base "/")
                    keep w0 (turnOnLogging_ready _ _) (turnOnLogging_no_email _ _))
          as (evs & n & E' & Hm & Hc)
      end.
      rewrite E' in E. cbn [logger events tick] in E.
      rewrite <- app_assoc in E. cbn [app] in E.
      rewrite (events_of_extends _ _ _ _ _ _ E), E.
      split; [reflexivity |]. split; [reflexivity |]. exists evs. auto.
    + rewrite (events_of_extends _ _ _ _ _ _ E), E. auto.
Qed.

(** ** The sweep, in calendar terms *)








(** X15. When the base directory cannot be listed, the sweep returns
    all the same: it writes its [Started] line through the trace logger and
    one [Completed : ERROR] line with the error of [ReadDir] through the
    error logger, reads no clock and removes nothing. *)
Theorem unreadable_directory_is_reported :
  forall (env : Env) (fuel : nat) (base : string) (keep : Z) (w : World)
         (err : string),
    ready (logger w) = true ->
    ioutil_ReadDir env (tick w) base = inr err ->
    LogDirectoryCleanup env fuel base keep w
    = (Returned tt,
       {| logger := logger w;
          events := events w
            ++ line_events (the_logger (logger w) SevTrace) 2
                 (render "main" "LogDirectoryCleanup" "Started"
                    (Some (fmt_Sprintf env "BaseFilePath[%s] DaysToKeep[%d]"
                             [VString base; VInt keep])) None)
            ++ EvReadDir base
            :: line_events (the_logger (logger w) SevError) 2
                 (render "main" "LogDirectoryCleanup" "Completed : ERROR" None
                    (Some err));
          tick := S (tick w) |}).
Proof.
  intros env fuel base keep w err R HL.
  unfold LogDirectoryCleanup, LogDirectoryCleanup_body, deferred.
  rewrite Startedf_eq, bind_log_line by exact R.
  unfold bind at 1, emit at 1. unfold bind at 1, ask at 1.
  cbn [logger events tick add_events]. rewrite HL.
  rewrite CompletedError_eq, log_line_run by exact R.
  unfold bind at 1. rewrite CatchPanic_quiet. unfold ret, add_events.
  cbn [logger events tick]. rewrite <- !app_assoc. reflexivity.
Qed.

Lemma unreadable_directory_is_reported_witness :
  output_lines
    (events (snd (LogDirectoryCleanup (sim_unreadable "permission denied") 0
                    "/logs" 5 started_with_file)))
  = ["main : LogDirectoryCleanup : Started : BaseFilePath[/logs] DaysToKeep[5]"
       ++ GoStrings.LF;
     "main : LogDirectoryCleanup : Completed : ERROR : permission denied"
       ++ GoStrings.LF].
Proof.
  rewrite (unreadable_directory_is_reported (sim_unreadable "permission denied") 0
             "/logs" 5 started_with_file "permission denied" eq_refl eq_refl).
  reflexivity.
Defined.

(** ** Directory names *)

Lemma Split_dash_free (a : string) :
  dash_free a = true -> GoStrings.Split a "-" = [a].
Proof.
  induction a as [| c a IH]; [reflexivity |]. cbn [dash_free GoStrings.Split].
  intros H. apply andb_prop in H as [Hc Ha]. apply negb_true_iff in Hc.
  rewrite Hc, (IH Ha). reflexivity.
Qed.

Lemma Split_app_dash (a r : string) :
  dash_free a = true ->
  GoStrings.Split (a ++ "-" ++ r) "-" = a :: GoStrings.Split r "-".
Proof.
  induction a as [| c a IH]; [reflexivity |].
  cbn [dash_free]. intros H. apply andb_prop in H as [Hc Ha].
  apply negb_true_iff in Hc.
  change (String c a ++ "-" ++ r) with (String c (a ++ "-" ++ r)).
  cbn [GoStrings.Split]. rewrite Hc, (IH Ha). reflexivity.
Qed.

(** X16. Only the first three dash-separated parts of a directory name
    are read. A name [a-b-c-rest] is taken for what [a-b-c] is taken for: a
    date when the three parts are numbers, whatever follows, so that such a
    directory is swept as the directory [a-b-c] would be; and a name with
    three parts or more never stops the sweep. *)
Theorem trailing_parts_of_a_name_are_ignored :
  forall (a b c rest : string),
    dash_free a = true -> dash_free b = true -> dash_free c = true ->
    classify (a ++ "-" ++ b ++ "-" ++ c ++ "-" ++ rest)
    = classify (a ++ "-" ++ b ++ "-" ++ c)
    /\ classify (a ++ "-" ++ b ++ "-" ++ c) <> TooShort
    /\ (forall (today : GoTime.Clock) (keep : Z),
          expired today keep (dir (a ++ "-" ++ b ++ "-" ++ c ++ "-" ++ rest))
          = expired today keep (dir (a ++ "-" ++ b ++ "-" ++ c)))
    /\ stops_sweep (dir (a ++ "-" ++ b ++ "-" ++ c ++ "-" ++ rest)) = false.
Proof.
  intros a b c rest Ha Hb Hc.
  assert (E : classify (a ++ "-" ++ b ++ "-" ++ c ++ "-" ++ rest)
              = classify (a ++ "-" ++ b ++ "-" ++ c)).
  { unfold classify.
    rewrite !(Split_app_dash a) by exact Ha.
    rewrite !(Split_app_dash b) by exact Hb.
    rewrite (Split_app_dash c) by exact Hc.
    rewrite (Split_dash_free c) by exact Hc.
    reflexivity. }
  assert (N : classify (a ++ "-" ++ b ++ "-" ++ c) <> TooShort).
  { unfold classify.
    rewrite !(Split_app_dash a) by exact Ha.
    rewrite !(Split_app_dash b) by exact Hb.
    rewrite (Split_dash_free c) by exact Hc.
    cbn [nth_error].
    destruct (GoStrings.Atoi a) as [y [e |]]; [discriminate |].
    destruct (GoStrings.Atoi b) as [m [e |]]; [discriminate |].
    destruct (GoStrings.Atoi c) as [d [e |]]; discriminate. }
  split; [exact E |]. split; [exact N |]. split.
  - intros today keep. unfold expired, dir. cbn [Name IsDir]. rewrite E. reflexivity.
  - unfold stops_sweep, dir. cbn [Name IsDir andb]. rewrite E.
    destruct (classify (a ++ "-" ++ b ++ "-" ++ c)); congruence.
Qed.

Lemma trailing_parts_of_a_name_are_ignored_witness :
  classify "2024-06-05-old" = Dated 2024 6 5.
Proof.
  change "2024-06-05-old"
    with ("2024" ++ "-" ++ "06" ++ "-" ++ "05" ++ "-" ++ "old").
  rewrite (proj1 (trailing_parts_of_a_name_are_ignored "2024" "06" "05" "old"
                    eq_refl eq_refl eq_refl)).
  reflexivity.
Defined.

(** ** Stop *)

Lemma Stop_with_LogFile env w f :
  ready (logger w) = true ->
  traceLog.LogFile (logger w) = Some f ->
  Stop env w
  = (Returned (File_Close env (tick w) f),
     {| logger := logger w;
        events := events w
          ++ line_events (the_logger (logger w) SevTrace) 2
               (render "main" "Stop" "Started" None None)
          ++ line_events (the_logger (logger w) SevTrace) 2
               (render "main" "Stop" "Info"
                  (Some (fmt_Sprintf env "Closing File" [])) None)
          ++ EvClose f
          :: line_events (the_logger (logger w) SevTrace) 2
               (render "main" "Stop" "Completed" None None);
        tick := S (tick w) |}).
Proof.
  intros R H. unfold Stop.
  rewrite Started_eq, bind_log_line by exact R.
  unfold bind at 1, get_logger at 1. cbn [logger add_events]. rewrite H.
  unfold bind at 1. unfold bind at 1.
  rewrite Trace_eq, log_line_run by exact R.
  unfold bind at 1, emit at 1. unfold ask at 1.
  cbn [logger events tick add_events].
  rewrite Completed_eq, bind_log_line by exact R.
  unfold ret, add_events. cbn [logger events tick].
  rewrite <- !app_assoc. reflexivity.
Qed.

(** X17. [Stop], on a logger that is ready, writes its [Started] and
    [Completed] lines through the trace logger and returns; when the field
    [LogFile] holds a file it writes a [Closing File] line in between,
    closes that file once and returns what closing reports, and when the
    field is [nil] it closes nothing and returns [nil]. In both cases the
    logger is left as it was: [Stop] turns no sink off, and the calls that
    follow write where they wrote before. *)
Theorem Stop_closes_LogFile_and_leaves_the_logger :
  forall (env : Env) (w : World),
    ready (logger w) = true ->
    fst (Stop env w)
    = Returned (match traceLog.LogFile (logger w) with
                | Some f => File_Close env (tick w) f
                | None => None
                end)
    /\ logger (snd (Stop env w)) = logger w
    /\ closed (events_of (Stop env) w)
       = match traceLog.LogFile (logger w) with
         | Some f => [f]
         | None => []
         end
    /\ output_lines (events_of (Stop env) w)
       = (render "main" "Stop" "Started" None None
          :: match traceLog.LogFile (logger w) with
             | Some _ => [render "main" "Stop" "Info"
                            (Some (fmt_Sprintf env "Closing File" [])) None]
             | None => []
             end
          ++ [render "main" "Stop" "Completed" None None])%list
    /\ output_writers (events_of (Stop env) w)
       = map (fun _ => logger_out (the_logger (logger w) SevTrace))
             (output_lines (events_of (Stop env) w)).
Proof.
  intros env w R. destruct (traceLog.LogFile (logger w)) as [f |] eqn:F.
  - pose proof (Stop_with_LogFile env w f R F) as E.
    rewrite (events_of_extends _ _ _ _ _ _ E), E. cbn. auto.
  - pose proof (Stop_without_LogFile env w R F) as E.
    rewrite (events_of_add_events _ _ _ _ E), E. cbn. auto.
Qed.

Lemma Stop_closes_LogFile_and_leaves_the_logger_witness :
  fst (Stop (sim [] None) (snd (Start LEVEL_INFO (fresh zero_traceLog))))
  = Returned None
  /\ logger (snd (Stop (sim [] None) (snd (Start LEVEL_INFO (fresh zero_traceLog)))))
     = turnOnLogging LEVEL_INFO None.
Proof.
  destruct (Stop_closes_LogFile_and_leaves_the_logger (sim [] None)
              (snd (Start LEVEL_INFO (fresh zero_traceLog))) eq_refl)
    as (A & B & _).
  split; [exact A | exact B].
Defined.

(** X18. An alert call made when no email configuration is set, as
    before [ConfigureEmail] and again after every [Start] or [StartFile],
    does what an error call does and no more: it writes its one line
    through the error logger, sends nothing, asks nothing of the
    environment and returns. *)
Theorem alert_without_configuration_only_logs :
  forall (env : Env) (fuel : nat) (c : LogCall) (w : World),
    is_alert (call_kind c) = true ->
    ready (logger w) = true ->
    traceLog.EmailConfiguration (logger w) = None ->
    run_call env (S fuel) c w
    = (Returned tt,
       add_events w
         [EvFormat (expected_line env c); EvLock;
          EvOutput (the_logger (logger w) SevError) (depth_of c)
                   (expected_line env c);
          EvUnlock]).
Proof.
  intros env fuel c w K R N.
  rewrite (run_call_alert env (S fuel) c K).
  etransitivity;
    [exact (alert_line_run (depth_of c) (expected_line env c)
              (fun message =>
                 SendEmailException env (S fuel) (call_subject c) message [] ;;
                 ret tt) w R) |].
  unfold bind. rewrite SendEmailException_unconfigured by exact N. reflexivity.
Qed.

Lemma alert_without_configuration_only_logs_witness :
  mail_attempts
    (events (snd (run_call (sim [] None) 1 alert_call
                    (snd (Start LEVEL_ERROR configured)))))
  = []
  /\ output_lines
       (events (snd (run_call (sim [] None) 1 alert_call
                       (snd (Start LEVEL_ERROR configured)))))
     = ["main : save : ALERT : full" ++ GoStrings.LF].
Proof.
  rewrite (alert_without_configuration_only_logs (sim [] None) 0 alert_call
             (snd (Start LEVEL_ERROR configured)) eq_refl eq_refl eq_refl).
  split; reflexivity.
Defined.

(** ** A turn of the sweep *)

(** X20. The turn of the sweep for a directory that is due reports
    everything through the trace logger, with the tag [Info]: the check,
    the removal, and then either that the directory was removed or, when
    [os.RemoveAll] fails, that the removal was attempted. The error of
    [os.RemoveAll] itself is not written anywhere, no line goes to the
    error logger, and the turn returns, so that the sweep goes on. *)
Theorem removal_is_reported_through_the_trace_logger :
  forall (env : Env) (base : string) (compareDate : Z) (e : FileInfo)
         (y m d : Z) (w : World),
    ready (logger w) = true ->
    IsDir e = true ->
    classify (Name e) = Dated y m d ->
    0 <= daysOld_of compareDate y m d ->
    cleanup_entry env base compareDate e w
    = (Returned tt,
       {| logger := logger w;
          events := events w
            ++ line_events (the_logger (logger w) SevTrace) 2
                 (render "main" "LogDirectoryCleanup" "Info"
                    (Some (fmt_Sprintf env "Checking Directory[%s] DaysOld[%d]"
                             [VString (fullFileName_of base (Name e));
                              VInt (daysOld_of compareDate y m d)])) None)
            ++ line_events (the_logger (logger w) SevTrace) 2
                 (render "main" "LogDirectoryCleanup" "Info"
                    (Some (fmt_Sprintf env "Removing Directory[%s]"
                             [VString (fullFileName_of base (Name e))])) None)
            ++ EvRemoveAll (fullFileName_of base (Name e))
            :: line_events (the_logger (logger w) SevTrace) 2
                 (render "main" "LogDirectoryCleanup" "Info"
                    (Some (fmt_Sprintf env
                             (match os_RemoveAll env (tick w)
                                      (fullFileName_of base (Name e)) with
                              | Some _ => "Attempting To Remove Directory [%s]"
                              | None => "Directory Removed [%s]"
                              end)
                             [VString (fullFileName_of base (Name e))])) None);
          tick := S (tick w) |}).
Proof.
  intros env base cmp e y m d w R Hd Hc Hdue.
  rewrite cleanup_entry_classify, Hd, Hc. cbn [negb].
  unfold remove_if_due. rewrite Trace_eq, bind_log_line by exact R.
  fold (fullFileName_of base (Name e)). fold (daysOld_of cmp y m d).
  apply Z.leb_le in Hdue. rewrite Hdue.
  rewrite Trace_eq, bind_log_line by exact R.
  unfold bind at 1, emit at 1. cbn [logger events tick add_events].
  unfold bind at 1, ask at 1. cbn [logger events tick].
  destruct (os_RemoveAll env (tick w) (fullFileName_of base (Name e)));
    rewrite Trace_eq, log_line_run by exact R;
    unfold add_events; cbn [logger events tick];
    rewrite <- !app_assoc; reflexivity.
Qed.

Lemma removal_is_reported_through_the_trace_logger_witness :
  output_lines
    (events (snd (cleanup_entry (sim [] None) "/logs"
                    (compareDate_of clock_2024_06_10 5) (dir "2024-06-05")
                    started_with_file)))
  = ["main : LogDirectoryCleanup : Info : Checking Directory[/logs/2024-06-05] DaysOld[0]"
       ++ GoStrings.LF;
     "main : LogDirectoryCleanup : Info : Removing Directory[/logs/2024-06-05]"
       ++ GoStrings.LF;
     "main : LogDirectoryCleanup : Info : Directory Removed [/logs/2024-06-05]"
       ++ GoStrings.LF].
Proof.
  rewrite (removal_is_reported_through_the_trace_logger (sim [] None) "/logs"
             (compareDate_of clock_2024_06_10 5) (dir "2024-06-05") 2024 6 5
             started_with_file eq_refl eq_refl eq_refl).
  - reflexivity.
  - vm_compute. discriminate.
Defined.
